(** * spi-tty-plain: a tty bridged to a microcontroller over SPI

    Shallow embedding of [drivers/spi/spi-tty-plain.c].  The driver's
    functions are state transformers over a kernel state that keeps the
    driver's globals, the slab objects it owns, the mutexes it takes and
    a trace of the calls it makes to its collaborators (the SPI core, the
    tty layer, the mutex).  The collaborators' answers (does an
    allocation succeed, what does the bus clock in, does a registration
    fail) are oracle fields of the state, so a statement quantified over
    all states covers every behaviour of the environment. *)

From stdpp Require Import base numbers list gmap.

Local Open Scope Z_scope.

(** ** Constants of the driver *)

Definition SPI_TTY_ENQUIRY : Z := 0x5.
Definition SPI_TTY_ENQ_INT_MS : Z := 200.
Definition SPI_TTY_MSG_LEN : Z := 64.
Definition SPI_TTY_FREQ_HZ_RX : Z := 9600.
Definition SPI_TTY_FREQ_HZ_TX : Z := 115200.
Definition SPI_TTY_DELAY_US : Z := 25.
Definition SPI_SERIAL_TTY_MINORS : Z := 1.

(** [sizeof(stty->enq_buf)] for [char enq_buf[SPI_TTY_MSG_LEN + 1]]. *)
Definition sizeof_enq_buf : Z := SPI_TTY_MSG_LEN + 1.

(** Modelled from the spec: the error numbers of
    [asm-generic/errno-base.h], a header that is not among the sources.
    The spec keeps the classes [OutOfMemory] and [Busy] apart; the values
    are the kernel's. *)
Definition ENOMEM : Z := 12.
Definition EBUSY : Z := 16.

Definition IRQ_HANDLED : Z := 1.

(** ** C integer conversions *)

Definition to_uint (z : Z) : Z := z mod 2 ^ 32.
Definition to_int (z : Z) : Z := (z + 2 ^ 31) mod 2 ^ 32 - 2 ^ 31.
Definition to_uchar (z : Z) : Z := z mod 256.
Definition INT_MAX : Z := 2 ^ 31 - 1.

(** ** Data *)

(** What a slab request asks for: a byte count, or the size of one of
    the structures whose layout lives in headers outside the driver. *)
Inductive ksize :=
| size_bytes (n : Z)
| sizeof_spi_message
| sizeof_spi_transfer
| sizeof_spi_tty.

(** [struct spi_transfer], the fields the driver sets.  [tx_buf] is the
    memory the caller's pointer designates, [rx_buf] the address of the
    inbound buffer. *)
Record spi_transfer := mk_transfer {
  tx_buf : list Z;
  rx_buf : nat;
  len : Z;
  speed_hz : Z;
  delay_usecs : Z
}.

(** [struct spi_tty] without its [port] and [mtx]: the mutex is kept in
    the kernel state under the object's address. *)
Record spi_tty := mk_stty {
  spi : option nat;
  tty_minor : Z;
  tty_dev : option nat;
  enq_buf : list Z
}.

(** What lives at a slab address: a [struct spi_tty], or memory whose
    contents the model keeps elsewhere (buffers, messages, transfers). *)
Inductive kobj :=
| obj_raw (sz : ksize)
| obj_spi_tty (s : spi_tty).

(** [struct tty_struct], the fields the driver reads or writes. *)
Record tty_struct := mk_tty {
  tty_index : nat;
  tty_device : nat;
  tty_count : Z
}.

(** [struct spi_device]: its [dev] and [dev.platform_data]. *)
Record spi_device := mk_spi {
  spi_dev : nat;
  platform_data : Z
}.

(** Calls that leave the driver, in the order they are made. *)
Inductive event :=
| EvMutexLock (m : nat)
| EvMutexUnlock (m : nat)
| EvKmalloc (sz : ksize) (p : option nat)
| EvKfree (p : nat)
| EvSpiBegin (t : spi_transfer)
| EvSpiEnd (status : Z)
| EvDevDbg (n status : Z)
| EvInsertFlipChar (tty : nat) (c : Z)
| EvFlipBufferPush (tty : nat)
| EvDevInfo
| EvDevErr
| EvRequestIrq (irq : Z) (data : nat)
| EvRegisterDevice (minor : Z)
| EvUnregisterDevice (minor : Z)
| EvKrefGet.

Record kstate := mk_kstate {
  (* the driver's globals *)
  dev_count : Z;
  ttys : list (option tty_struct);
  driver_ttys : bool;
  (* memory *)
  heap : gmap nat kobj;
  locked : gset nat;
  drvdata : gmap nat nat;
  (* the environment's answers *)
  alloc_plan : list bool;
  spi_bus : spi_transfer → list Z * Z;
  gpio_to_irq : Z → Z;
  request_irq_ret : Z → Z;
  register_device_ret : Z → nat + Z;
  init_termios_ret : tty_struct → Z;
  (* what the driver did *)
  trace : list event
}.

(** ** The monad: state, plus no result when the call never returns or
    touches freed memory *)

Definition M (A : Type) : Type := kstate → option (A * kstate).

Definition ret {A} (a : A) : M A := λ st, Some (a, st).

Definition bind {A B} (c : M A) (k : A → M B) : M B :=
  λ st, match c st with
        | Some (a, st') => k a st'
        | None => None
        end.

Notation "x <- c1 ;; c2" := (bind c1 (λ x, c2))
  (at level 100, c1 at next level, right associativity).
Notation "c1 ;; c2" := (bind c1 (λ _, c2))
  (at level 100, right associativity).

Definition gets {A} (f : kstate → A) : M A := λ st, Some (f st, st).
Definition modify (f : kstate → kstate) : M unit := λ st, Some (tt, f st).
Definition stuck {A} : M A := λ _, None.

(** Field updates. *)

Definition set_dev_count (v : Z) (st : kstate) : kstate :=
  mk_kstate v (ttys st) (driver_ttys st) (heap st) (locked st) (drvdata st)
    (alloc_plan st) (spi_bus st) (gpio_to_irq st) (request_irq_ret st)
    (register_device_ret st) (init_termios_ret st) (trace st).

Definition set_heap (v : gmap nat kobj) (st : kstate) : kstate :=
  mk_kstate (dev_count st) (ttys st) (driver_ttys st) v (locked st)
    (drvdata st) (alloc_plan st) (spi_bus st) (gpio_to_irq st)
    (request_irq_ret st) (register_device_ret st) (init_termios_ret st)
    (trace st).

Definition set_locked (v : gset nat) (st : kstate) : kstate :=
  mk_kstate (dev_count st) (ttys st) (driver_ttys st) (heap st) v
    (drvdata st) (alloc_plan st) (spi_bus st) (gpio_to_irq st)
    (request_irq_ret st) (register_device_ret st) (init_termios_ret st)
    (trace st).

Definition set_drvdata (v : gmap nat nat) (st : kstate) : kstate :=
  mk_kstate (dev_count st) (ttys st) (driver_ttys st) (heap st) (locked st)
    v (alloc_plan st) (spi_bus st) (gpio_to_irq st) (request_irq_ret st)
    (register_device_ret st) (init_termios_ret st) (trace st).

Definition set_alloc_plan (v : list bool) (st : kstate) : kstate :=
  mk_kstate (dev_count st) (ttys st) (driver_ttys st) (heap st) (locked st)
    (drvdata st) v (spi_bus st) (gpio_to_irq st) (request_irq_ret st)
    (register_device_ret st) (init_termios_ret st) (trace st).

Definition set_trace (v : list event) (st : kstate) : kstate :=
  mk_kstate (dev_count st) (ttys st) (driver_ttys st) (heap st) (locked st)
    (drvdata st) (alloc_plan st) (spi_bus st) (gpio_to_irq st)
    (request_irq_ret st) (register_device_ret st) (init_termios_ret st) v.

Definition set_ttys (v : list (option tty_struct)) (d : bool) (st : kstate)
  : kstate :=
  mk_kstate (dev_count st) v d (heap st) (locked st) (drvdata st)
    (alloc_plan st) (spi_bus st) (gpio_to_irq st) (request_irq_ret st)
    (register_device_ret st) (init_termios_ret st) (trace st).

(** ** Kernel services the driver calls *)

Definition log (e : event) : M unit :=
  modify (λ st, set_trace (trace st ++ [e]) st).

(** [mutex_lock(&stty->mtx)], with the address of the instance for the
    mutex inside it: it does not return while the mutex is taken, and has
    no result once the instance is gone. *)
Definition mutex_lock (m : nat) : M unit :=
  λ st, match heap st !! m with
        | Some (obj_spi_tty _) =>
            if bool_decide (m ∈ locked st) then None
            else Some (tt, set_trace (trace st ++ [EvMutexLock m])
                             (set_locked ({[m]} ∪ locked st) st))
        | _ => None
        end.

Definition mutex_unlock (m : nat) : M unit :=
  λ st, match heap st !! m with
        | Some (obj_spi_tty _) =>
            Some (tt, set_trace (trace st ++ [EvMutexUnlock m])
                        (set_locked (locked st ∖ {[m]}) st))
        | _ => None
        end.

(** A [struct spi_tty] with every byte zero. *)
Definition zeroed_spi_tty : spi_tty :=
  mk_stty None 0 None (replicate (Z.to_nat sizeof_enq_buf) 0).

Definition new_obj (sz : ksize) : kobj :=
  match sz with
  | sizeof_spi_tty => obj_spi_tty zeroed_spi_tty
  | _ => obj_raw sz
  end.

(** The slab: the next entry of [alloc_plan] says whether the request is
    served (an exhausted plan serves everything); a served request gets an
    address that is not in use. *)
Definition kmalloc (sz : ksize) : M (option nat) :=
  λ st, match alloc_plan st with
        | false :: plan =>
            Some (None, set_trace (trace st ++ [EvKmalloc sz None])
                          (set_alloc_plan plan st))
        | plan =>
            let p := fresh (dom (heap st)) in
            Some (Some p, set_trace (trace st ++ [EvKmalloc sz (Some p)])
                            (set_heap (<[p := new_obj sz]> (heap st))
                               (set_alloc_plan (tail plan) st)))
        end.

Definition kzalloc (sz : ksize) : M (option nat) := kmalloc sz.

Definition kfree (p : nat) : M unit :=
  modify (λ st, set_trace (trace st ++ [EvKfree p])
                  (set_heap (delete p (heap st)) st)).

(** Dereferencing [stty]: there is no result once the object is gone. *)
Definition load (p : nat) : M spi_tty :=
  λ st, match heap st !! p with
        | Some (obj_spi_tty s) => Some (s, st)
        | _ => None
        end.

Definition store (p : nat) (f : spi_tty → spi_tty) : M unit :=
  λ st, match heap st !! p with
        | Some (obj_spi_tty s) =>
            Some (tt, set_heap (<[p := obj_spi_tty (f s)]> (heap st)) st)
        | _ => None
        end.

(** What the bus leaves in an inbound buffer [buf]: the bytes clocked in
    overwrite it from the start, never past its end. *)
Definition rx_store (rx buf : list Z) : list Z :=
  take (length buf) (map to_uchar rx ++ drop (length rx) buf).

(** [spi_sync] on a message with the single transfer [t]: blocks for the
    exchange and returns the bus status; [buf] is the inbound buffer
    before, the first component of the result the buffer after. *)
Definition spi_sync (dev : option nat) (t : spi_transfer) (buf : list Z)
  : M (list Z * Z) :=
  answer <- gets (λ st, spi_bus st t) ;;
  log (EvSpiBegin t) ;;
  log (EvSpiEnd answer.2) ;;
  ret (rx_store answer.1 buf, answer.2).

Definition tty_insert_flip_char (tty : tty_struct) (c : Z) : M unit :=
  log (EvInsertFlipChar (tty_index tty) c).

Definition tty_flip_buffer_push (tty : tty_struct) : M unit :=
  log (EvFlipBufferPush (tty_index tty)).

(** [ttys[i]] *)
Definition ttys_at (st : kstate) (i : nat) : option tty_struct :=
  default None (ttys st !! i).

(** [buf[i]] for an [unsigned char] buffer. *)
Definition byte_at (buf : list Z) (i : Z) : Z :=
  default 0 (buf !! Z.to_nat i).

Definition dev_dbg (dev : option nat) (n status : Z) : M unit :=
  log (EvDevDbg n status).

(** [devm_request_threaded_irq(..., irq, NULL, handler, ..., data)] *)
Definition devm_request_threaded_irq (irq : Z) (data : nat) : M Z :=
  log (EvRequestIrq irq data) ;;
  gets (λ st, request_irq_ret st irq).

(** [tty_register_device]: a device, or an error pointer. *)
Definition tty_register_device (minor : Z) : M (nat + Z) :=
  log (EvRegisterDevice minor) ;;
  gets (λ st, register_device_ret st minor).

(** [mutex_init(&stty->mtx)] *)
Definition mutex_init (m : nat) : M unit :=
  modify (λ st, set_locked (locked st ∖ {[m]}) st).

(** ** The driver *)

Definition spi_serial_tty_write_room : Z := SPI_TTY_MSG_LEN.

(** The delivery loop of [__spi_serial_tty_write]:
    [for (i = 1; i < len; i++) { if (rx_buf[i] == 0) continue;
    tty_insert_flip_char(tty, rx_buf[i], TTY_NORMAL); }]
    with [i] an [int] and [len] an [unsigned int].  [fuel] bounds the
    iterations; running out of it gives no result. *)
Fixpoint feed_loop (fuel : nat) (tty : tty_struct) (rx : list Z) (n i : Z)
  : M unit :=
  if to_uint i <? n then
    match fuel with
    | O => stuck
    | S fuel =>
        (if byte_at rx i =? 0 then ret tt
         else tty_insert_flip_char tty (byte_at rx i)) ;;
        feed_loop fuel tty rx n (to_int (i + 1))
    end
  else ret tt.

(** [stty] is the address of the instance, [buf] the memory behind the
    caller's pointer ([None] for [NULL]), [count] the [int] passed with
    it.  The message holds the one transfer built here. *)
Definition __spi_serial_tty_write (stty : nat) (buf : option (list Z))
    (count : Z) (discard_rx : bool) : M Z :=
  match buf with
  | None => ret 0
  | Some buf =>
    if count =? 0 then ret 0 else
    mutex_lock stty ;;
    let n := to_uint (if discard_rx then Z.min SPI_TTY_MSG_LEN count
                      else count) in
    rx <- kzalloc (size_bytes n) ;;
    match rx with
    | None => mutex_unlock stty ;; ret (- ENOMEM)
    | Some rx =>
      m <- kmalloc sizeof_spi_message ;;
      match m with
      | None => mutex_unlock stty ;; ret (- ENOMEM)
      | Some m =>
        t <- kzalloc sizeof_spi_transfer ;;
        match t with
        | None => mutex_unlock stty ;; ret (- ENOMEM)
        | Some t =>
          let xfer :=
            {| len := n; tx_buf := buf; rx_buf := rx;
               delay_usecs := SPI_TTY_DELAY_US;
               speed_hz := if discard_rx then SPI_TTY_FREQ_HZ_TX
                           else SPI_TTY_FREQ_HZ_RX |} in
          s <- load stty ;;
          r <- spi_sync (spi s) xfer (replicate (Z.to_nat n) 0) ;;
          (if discard_rx then ret tt
           else
             (if r.2 =? 0 then ret tt else dev_dbg (tty_dev s) n r.2) ;;
             tty <- gets (λ st, ttys_at st 0) ;;
             match tty with
             | None => ret tt
             | Some tty =>
                 feed_loop (Z.to_nat n) tty r.1 n 1 ;;
                 tty_flip_buffer_push tty
             end) ;;
          (* end: *)
          kfree t ;;
          kfree m ;;
          kfree rx ;;
          mutex_unlock stty ;;
          ret (to_int n)
        end
      end
    end
  end.

(** [tty_to_spitty(tty)] is [dev_get_drvdata(tty->dev)]. *)
Definition tty_to_spitty (tty : tty_struct) : M nat :=
  p <- gets (λ st, drvdata st !! tty_device tty) ;;
  match p with
  | Some stty => ret stty
  | None => stuck
  end.

Definition spi_serial_tty_write (tty : tty_struct) (buf : option (list Z))
    (count : Z) : M Z :=
  stty <- tty_to_spitty tty ;;
  __spi_serial_tty_write stty buf count true.

(** [if (idx == 0); return ttys[0]; return NULL;]: the [if] guards an
    empty statement, the first [return] is unconditional. *)
Definition spi_serial_tty_lookup (idx : Z) : M (option tty_struct) :=
  (if idx =? 0 then ret tt else ret tt) ;;
  gets (λ st, ttys_at st 0).

Definition spi_serial_tty_install (tty : tty_struct) : M Z :=
  cur <- gets (λ st, ttys_at st 0) ;;
  match cur with
  | Some _ => ret (- EBUSY)
  | None =>
      e <- gets (λ st, init_termios_ret st tty) ;;
      if e =? 0 then
        log EvKrefGet ;;
        modify (λ st,
          set_ttys
            (<[0%nat := Some (mk_tty (tty_index tty) (tty_device tty)
                                (to_int (tty_count tty + 1)))]> (ttys st))
            true st) ;;
        ret 0
      else ret (- ENOMEM)
  end.

Definition spi_serial_tty_remove (tty : tty_struct) : M unit :=
  modify (λ st, set_ttys (<[0%nat := None]> (ttys st)) false st).

Definition spi_tty_irq_handler (irq : Z) (data : nat) : M Z :=
  s <- load data ;;
  __spi_serial_tty_write data (Some (enq_buf s)) sizeof_enq_buf false ;;
  ret IRQ_HANDLED.

Definition spi_tty_probe (sdev : spi_device) : M Z :=
  let gpio_irq := to_int (to_uint (platform_data sdev)) in
  dc <- gets dev_count ;;
  if SPI_SERIAL_TTY_MINORS <=? dc then ret (- ENOMEM) else
  log EvDevInfo ;;
  p <- kzalloc sizeof_spi_tty ;;
  match p with
  | None => ret (- ENOMEM)
  | Some stty =>
    (* spi_set_drvdata(spi, stty); stty->spi = spi; *)
    modify (λ st, set_drvdata (<[spi_dev sdev := stty]> (drvdata st)) st) ;;
    store stty (λ s, mk_stty (Some (spi_dev sdev)) (tty_minor s) (tty_dev s)
                       (enq_buf s)) ;;
    (* memset(stty->enq_buf, SPI_TTY_ENQUIRY, sizeof(stty->enq_buf)); *)
    store stty (λ s, mk_stty (spi s) (tty_minor s) (tty_dev s)
                       (replicate (Z.to_nat sizeof_enq_buf)
                          SPI_TTY_ENQUIRY)) ;;
    (* stty->enq_buf[sizeof(stty->enq_buf) - 1] = 0x00; *)
    store stty (λ s, mk_stty (spi s) (tty_minor s) (tty_dev s)
                       (<[Z.to_nat (sizeof_enq_buf - 1) := 0]> (enq_buf s))) ;;
    mutex_init stty ;;
    irq <- gets (λ st, gpio_to_irq st gpio_irq) ;;
    err <- devm_request_threaded_irq irq stty ;;
    if err =? 0 then
      (* tty_port_init(&stty->port); stty->tty_minor = dev_count; *)
      dc <- gets dev_count ;;
      store stty (λ s, mk_stty (spi s) dc (tty_dev s) (enq_buf s)) ;;
      d <- tty_register_device dc ;;
      match d with
      | inr e =>
          (* IS_ERR(stty->tty_dev) *)
          log EvDevErr ;;
          kfree stty ;;
          ret e
      | inl dev =>
          store stty (λ s, mk_stty (spi s) (tty_minor s) (Some dev)
                             (enq_buf s)) ;;
          (* dev_set_drvdata(stty->tty_dev, stty); *)
          modify (λ st, set_drvdata (<[dev := stty]> (drvdata st)) st) ;;
          (* under the spinlock: dev_count++ *)
          dc <- gets dev_count ;;
          modify (set_dev_count (to_uint (dc + 1))) ;;
          ret 0
      end
    else
      (* err_req_tty: *)
      kfree stty ;;
      ret err
  end.

Definition spi_tty_remove (sdev : spi_device) : M Z :=
  log EvDevInfo ;;
  p <- gets (λ st, drvdata st !! spi_dev sdev) ;;
  match p with
  | None => stuck
  | Some stty =>
      s <- load stty ;;
      dc <- gets dev_count ;;
      (if tty_minor s =? to_uint (dc - 1)
       then modify (set_dev_count (to_uint (dc - 1)))
       else ret tt) ;;
      log (EvUnregisterDevice (tty_minor s)) ;;
      kfree stty ;;
      ret 0
  end.

(** The statics as the module is loaded and [spi_tty_init] has cleared
    [ttys], for a given environment. *)
Definition module_state (plan : list bool) (bus : spi_transfer → list Z * Z)
    (g2i rq : Z → Z) (reg : Z → nat + Z) (termios : tty_struct → Z)
  : kstate :=
  mk_kstate 0 (replicate (Z.to_nat SPI_SERIAL_TTY_MINORS) None) false
    ∅ ∅ ∅ plan bus g2i rq reg termios [].

(** ** Reading a trace *)

(** The transfers handed to the bus. *)
Definition transfers_of (evs : list event) : list spi_transfer :=
  omap (λ e, match e with EvSpiBegin t => Some t | _ => None end) evs.

(** The bytes a transfer puts on the wire: [len] bytes from [tx_buf]. *)
Definition frame (t : spi_transfer) : list Z :=
  take (Z.to_nat (len t)) (tx_buf t).

(** The characters handed to the tty layer, each with the tty it went
    to. *)
Definition flips_of (evs : list event) : list (nat * Z) :=
  omap (λ e, match e with
             | EvInsertFlipChar i c => Some (i, c)
             | _ => None
             end) evs.

(** The sizes of the byte buffers requested from the slab. *)
Definition byte_requests (evs : list event) : list Z :=
  omap (λ e, match e with
             | EvKmalloc (size_bytes m) _ => Some m
             | _ => None
             end) evs.

Definition is_lock (m : nat) (e : event) : bool :=
  match e with EvMutexLock m' => bool_decide (m' = m) | _ => false end.

Definition is_unlock (m : nat) (e : event) : bool :=
  match e with EvMutexUnlock m' => bool_decide (m' = m) | _ => false end.

Definition is_mutex_event (m : nat) (e : event) : bool :=
  is_lock m e || is_unlock m e.

Definition count_events (f : event → bool) (evs : list event) : nat :=
  length (filter (λ e, f e = true) evs).

(** [c], started in [st], returns [r] in state [st'] after making the
    calls [evs]. *)
Definition runs {A} (c : M A) (st : kstate) (r : A) (evs : list event)
    (st' : kstate) : Prop :=
  c st = Some (r, st') ∧ trace st' = trace st ++ evs.

(** The inbound length [__spi_serial_tty_write] computes. *)
Definition xfer_len (count : Z) (discard_rx : bool) : Z :=
  to_uint (if discard_rx then Z.min SPI_TTY_MSG_LEN count else count).

(** The transfer [__spi_serial_tty_write] builds in state [st]. *)
Definition xfer_of (st : kstate) (buf : list Z) (count : Z)
    (discard_rx : bool) : spi_transfer :=
  {| tx_buf := buf;
     rx_buf := fresh (dom (heap st));
     len := xfer_len count discard_rx;
     speed_hz := if discard_rx then SPI_TTY_FREQ_HZ_TX
                 else SPI_TTY_FREQ_HZ_RX;
     delay_usecs := SPI_TTY_DELAY_US |}.

(** The inbound buffer once the bus has answered transfer [t]. *)
Definition inbound (st : kstate) (t : spi_transfer) : list Z :=
  rx_store (spi_bus st t).1 (replicate (Z.to_nat (len t)) 0).

(** What the spec says is delivered from an inbound buffer: its bytes
    from index 1 on, without the null ones. *)
Definition delivered (rx : list Z) : list Z :=
  filter (λ c, c ≠ 0) (drop 1 rx).

(** What a poll does with the answer to transfer [t]: a debug line for a
    bad status, then the delivery to the tty in [ttys[0]], if any. *)
Definition poll_events (st : kstate) (t : spi_transfer) : list event :=
  (if (spi_bus st t).2 =? 0 then []
   else [EvDevDbg (len t) (spi_bus st t).2]) ++
  match ttys_at st 0 with
  | None => []
  | Some tty =>
      map (EvInsertFlipChar (tty_index tty)) (delivered (inbound st t)) ++
      [EvFlipBufferPush (tty_index tty)]
  end.

(** The calls made while the mutex is held, when nothing fails. *)
Definition exchange_events (st : kstate) (t : spi_transfer)
    (discard_rx : bool) : list event :=
  EvSpiBegin t :: EvSpiEnd (spi_bus st t).2 ::
  (if discard_rx then [] else poll_events st t).

(** The first [n] requests of a plan are all served. *)
Definition served (n : nat) (plan : list bool) : Prop :=
  Forall (λ b, b = true) (take n plan).

(** The plan serves [k] requests and refuses the next. *)
Definition refused_at (k : nat) (plan : list bool) : Prop :=
  served k plan ∧ plan !! k = Some false.

(** The slab after the first [k] requests of [__spi_serial_tty_write]
    were served and nothing was given back. *)
Definition heap_after (k : nat) (n : Z) (h : gmap nat kobj) : gmap nat kobj :=
  match k with
  | 0%nat => h
  | 1%nat => <[fresh (dom h) := obj_raw (size_bytes n)]> h
  | _ =>
      let h1 := <[fresh (dom h) := obj_raw (size_bytes n)]> h in
      <[fresh (dom h1) := obj_raw sizeof_spi_message]> h1
  end.

(** The [k]-th slab request of [__spi_serial_tty_write], for an inbound
    length [n]. *)
Definition request (k : nat) (n : Z) : ksize :=
  match k with
  | 0%nat => size_bytes n
  | 1%nat => sizeof_spi_message
  | _ => sizeof_spi_transfer
  end.

(** The address the [k]-th request gets when served. *)
Definition slab_addr (k : nat) (n : Z) (h : gmap nat kobj) : nat :=
  fresh (dom (heap_after k n h)).

(** The first [k] requests, all served. *)
Definition alloc_events (k : nat) (n : Z) (h : gmap nat kobj) : list event :=
  map (λ j, EvKmalloc (request j n) (Some (slab_addr j n h))) (seq 0 k).

(** The three objects given back, last one first. *)
Definition free_events (n : Z) (h : gmap nat kobj) : list event :=
  [EvKfree (slab_addr 2 n h); EvKfree (slab_addr 1 n h);
   EvKfree (slab_addr 0 n h)].

(** The calls of an invocation the slab serves. *)
Definition served_events (st : kstate) (stty : nat) (buf : list Z)
    (count : Z) (discard_rx : bool) : list event :=
  let n := xfer_len count discard_rx in
  EvMutexLock stty ::
  alloc_events 3 n (heap st) ++
  exchange_events st (xfer_of st buf count discard_rx) discard_rx ++
  free_events n (heap st) ++
  [EvMutexUnlock stty].

(** The calls of an invocation whose [k]-th request is refused. *)
Definition refused_events (k : nat) (st : kstate) (stty : nat) (count : Z)
    (discard_rx : bool) : list event :=
  let n := xfer_len count discard_rx in
  EvMutexLock stty ::
  alloc_events k n (heap st) ++
  [EvKmalloc (request k n) None; EvMutexUnlock stty].

(** ** Concurrent calls on one instance

    Each thread runs the calls of one invocation, in order; [pend] keeps
    what each thread has still to do, [owner] who holds [stty->mtx].  A
    thread can take the mutex only when nobody holds it; every other call
    can be made at any time. *)
Record conf := mk_conf {
  owner : option nat;
  pend : list (list event)
}.

Inductive cstep (m : nat) : conf → conf → Prop :=
| cstep_lock c i rest :
    pend c !! i = Some (EvMutexLock m :: rest) →
    owner c = None →
    cstep m c (mk_conf (Some i) (<[i := rest]> (pend c)))
| cstep_unlock c i rest :
    pend c !! i = Some (EvMutexUnlock m :: rest) →
    cstep m c (mk_conf None (<[i := rest]> (pend c)))
| cstep_other c i e rest :
    pend c !! i = Some (e :: rest) →
    is_mutex_event m e = false →
    cstep m c (mk_conf (owner c) (<[i := rest]> (pend c))).

Definition reachable (m : nat) (progs : list (list event)) (c : conf) : Prop :=
  rtc (cstep m) (mk_conf None progs) c.

(** A thread is inside its exchange when the bus has been started and
    the call has not come back yet. *)
Definition in_flight (c : conf) (i : nat) : Prop :=
  ∃ status rest, pend c !! i = Some (EvSpiEnd status :: rest).

(** The calls of one invocation of [__spi_serial_tty_write] on [stty]. *)
Definition call_events (stty : nat) (evs : list event) : Prop :=
  ∃ buf count discard_rx st r st',
    0 ≤ count ≤ INT_MAX ∧
    runs (__spi_serial_tty_write stty buf count discard_rx) st r evs st'.

(** No call of [evs] touches the mutex [m]. *)
Definition quiet (m : nat) (evs : list event) : Prop :=
  Forall (λ e, is_mutex_event m e = false) evs.

(** [evs] takes the mutex first, gives it back last, and leaves it
    alone in between. *)
Definition bracketed (m : nat) (evs : list event) : Prop :=
  ∃ mid, evs = EvMutexLock m :: mid ++ [EvMutexUnlock m] ∧ quiet m mid.

(** What a thread has left to do when it holds the mutex, and when it
    does not. *)
Definition inside (m : nat) (rest : list event) : Prop :=
  ∃ mid, rest = mid ++ [EvMutexUnlock m] ∧ quiet m mid.

Definition outside (m : nat) (rest : list event) : Prop :=
  rest = [] ∨ bracketed m rest.

(** The mutex is held by exactly the threads that are inside. *)
Definition mutex_inv (m : nat) (c : conf) : Prop :=
  ∀ i rest, pend c !! i = Some rest →
    (owner c = Some i ∧ inside m rest) ∨ (owner c ≠ Some i ∧ outside m rest).

(** ** The rest of the driver: what its entry points leave behind *)

(** The interrupt line [spi_tty_probe] asks for:
    [gpio_to_irq((unsigned int)spi->dev.platform_data)]. *)
Definition probe_irq (sdev : spi_device) (st : kstate) : Z :=
  gpio_to_irq st (to_int (to_uint (platform_data sdev))).

(** The instance a successful probe of [sdev] builds, registered as the
    tty device [dev] under the minor [minor]. *)
Definition probed_instance (sdev : spi_device) (minor : Z) (dev : nat)
  : spi_tty :=
  mk_stty (Some (spi_dev sdev)) minor (Some dev)
    (replicate 64 SPI_TTY_ENQUIRY ++ [0]).

(** Calls into the tty layer. *)
Definition is_tty_call (e : event) : bool :=
  match e with
  | EvInsertFlipChar _ _ | EvFlipBufferPush _ => true
  | _ => false
  end.

(** The diagnostics written with [dev_dbg]: length and status. *)
Definition dbgs_of (evs : list event) : list (Z * Z) :=
  omap (λ e, match e with EvDevDbg n x => Some (n, x) | _ => None end) evs.

(** The addresses the slab handed out, and those given back to it. *)
Definition allocated_of (evs : list event) : list nat :=
  omap (λ e, match e with EvKmalloc _ (Some p) => Some p | _ => None end) evs.

Definition freed_of (evs : list event) : list nat :=
  omap (λ e, match e with EvKfree p => Some p | _ => None end) evs.

(** The entry points the kernel calls into the driver with. *)
Inductive driver_op :=
| op_probe (sdev : spi_device)
| op_remove (sdev : spi_device)
| op_write (tty : tty_struct) (buf : option (list Z)) (count : Z)
| op_irq (irq : Z) (data : nat)
| op_install (tty : tty_struct)
| op_tty_remove (tty : tty_struct)
| op_lookup (idx : Z).

(** One call, its result dropped. *)
Definition enter (o : driver_op) : M unit :=
  match o with
  | op_probe sdev => spi_tty_probe sdev ;; ret tt
  | op_remove sdev => spi_tty_remove sdev ;; ret tt
  | op_write tty buf count => spi_serial_tty_write tty buf count ;; ret tt
  | op_irq irq data => spi_tty_irq_handler irq data ;; ret tt
  | op_install tty => spi_serial_tty_install tty ;; ret tt
  | op_tty_remove tty => spi_serial_tty_remove tty
  | op_lookup idx => spi_serial_tty_lookup idx ;; ret tt
  end.

(** The tty layer passes a byte count that is not negative. *)
Definition valid_op (o : driver_op) : Prop :=
  match o with
  | op_write _ _ count => 0 ≤ count ≤ INT_MAX
  | _ => True
  end.

(** One step of the machine: the environment decides what the slab will
    answer, then the kernel makes one valid call that returns. *)
Definition driver_step (st st' : kstate) : Prop :=
  ∃ o plan, valid_op o ∧ enter o (set_alloc_plan plan st) = Some (tt, st').

(** The instance count is within the capacity and every instance has
    the minor 0. *)
Definition within_capacity (st : kstate) : Prop :=
  0 ≤ dev_count st ≤ SPI_SERIAL_TTY_MINORS ∧
  ∀ p s, heap st !! p = Some (obj_spi_tty s) → tty_minor s = 0.

(** ** A concrete machine

    A bus that always answers [00 'A' 00 'B' 00] with status 0, an
    interrupt controller and a tty core that accept every registration,
    the SPI device 3 with GPIO 17; used to run the driver on explicit
    inputs. *)

Definition demo_bus (t : spi_transfer) : list Z * Z := ([0; 65; 0; 66; 0], 0).

(** A bus that clocks nothing in and reports the error -5. *)
Definition broken_bus (t : spi_transfer) : list Z * Z := ([], -5).

Definition demo_state (bus : spi_transfer → list Z * Z) : kstate :=
  module_state [] bus id (λ _, 0) (λ _, inl 7%nat) (λ _, 0).

Definition demo_spi : spi_device := mk_spi 3 17.

Definition demo_tty : tty_struct := mk_tty 1 7 0.

(** The state [c] leaves, or the initial one if it has no result. *)
Definition after {A} (c : M A) (st : kstate) : kstate :=
  match c st with
  | Some (_, st') => st'
  | None => st
  end.

(** The result of [c], if any. *)
Definition result {A} (c : M A) (st : kstate) : option A :=
  fst <$> c st.

(** The calls [c] makes from [st]. *)
Definition calls {A} (c : M A) (st : kstate) : list event :=
  drop (length (trace st)) (trace (after c st)).

(** The demo machine with one instance probed (at address 0), and what
    the slab will answer from then on. *)
Definition probed_on (bus : spi_transfer → list Z * Z) (plan : list bool)
  : kstate :=
  set_alloc_plan plan (after (spi_tty_probe demo_spi) (demo_state bus)).

Definition probed (plan : list bool) : kstate := probed_on demo_bus plan.

(** The same with a tty installed in [ttys[0]]. *)
Definition attached (plan : list bool) : kstate :=
  after (spi_serial_tty_install demo_tty) (probed plan).

(** * Proofs *)

Lemma set_trace_id st : set_trace (trace st) st = st.
Proof. by destruct st. Qed.

Lemma to_uint_small z : 0 ≤ z < 2 ^ 32 → to_uint z = z.
Proof. intros. unfold to_uint. by apply Z.mod_small. Qed.

Lemma to_int_small z : - 2 ^ 31 ≤ z < 2 ^ 31 → to_int z = z.
Proof. intros. unfold to_int. rewrite Z.mod_small; lia. Qed.

Lemma feed_loop_spec tty rx n :
  0 ≤ n ≤ INT_MAX →
  length rx = Z.to_nat n →
  ∀ fuel i st,
    1 ≤ i ≤ Z.max 1 n →
    (Z.to_nat n - Z.to_nat i ≤ fuel)%nat →
    feed_loop fuel tty rx n i st =
      Some (tt, set_trace
                  (trace st ++
                     map (EvInsertFlipChar (tty_index tty))
                       (filter (λ c, c ≠ 0) (drop (Z.to_nat i) rx))) st).
Proof.
  unfold INT_MAX. intros Hn Hlen fuel.
  assert (Hdone : ∀ i st, 1 ≤ i ≤ Z.max 1 n → ¬ i < n →
    Some (tt, st) = Some (tt, set_trace (trace st ++
       map (EvInsertFlipChar (tty_index tty))
         (filter (λ c, c ≠ 0) (drop (Z.to_nat i) rx))) st)).
  { intros i st Hi Hge. rewrite drop_ge by lia. simpl.
    by rewrite app_nil_r, set_trace_id. }
  induction fuel as [|fuel IH]; intros i st Hi Hfuel; simpl;
    rewrite to_uint_small by lia; destruct (Z.ltb_spec i n) as [Hlt|Hge];
    try (apply Hdone; lia); [lia|].
  destruct (lookup_lt_is_Some_2 rx (Z.to_nat i)) as [x Hx]; [lia|].
  rewrite (drop_S _ _ _ Hx). unfold byte_at. rewrite Hx. simpl.
  rewrite to_int_small by lia.
  unfold bind at 1.
  destruct (Z.eqb_spec x 0) as [->|Hx0].
  - unfold ret at 1. rewrite IH by lia.
    rewrite filter_cons_False by (intros ?; done).
    by replace (Z.to_nat (i + 1)) with (S (Z.to_nat i)) by lia.
  - unfold tty_insert_flip_char, log, modify.
    rewrite IH by lia. simpl.
    rewrite filter_cons_True by done. simpl.
    replace (Z.to_nat (i + 1)) with (S (Z.to_nat i)) by lia.
    by rewrite <- app_assoc.
Qed.

(** ** The slab *)

Lemma served_S k plan :
  served (S k) plan → head plan ≠ Some false ∧ served k (tail plan).
Proof.
  unfold served. destruct plan as [|b plan]; simpl.
  - by rewrite take_nil.
  - intros H. apply Forall_cons in H. destruct H as [Hb H]. by subst.
Qed.

Lemma kmalloc_served sz st :
  head (alloc_plan st) ≠ Some false →
  kmalloc sz st =
    Some (Some (fresh (dom (heap st))),
          set_trace (trace st ++ [EvKmalloc sz (Some (fresh (dom (heap st))))])
            (set_heap (<[fresh (dom (heap st)) := new_obj sz]> (heap st))
               (set_alloc_plan (tail (alloc_plan st)) st))).
Proof.
  unfold kmalloc. by destruct (alloc_plan st) as [|[] plan].
Qed.

Lemma kmalloc_refused sz st :
  head (alloc_plan st) = Some false →
  kmalloc sz st =
    Some (None, set_trace (trace st ++ [EvKmalloc sz None])
                  (set_alloc_plan (tail (alloc_plan st)) st)).
Proof.
  unfold kmalloc. by destruct (alloc_plan st) as [|[] plan].
Qed.

Lemma fresh_unused (h : gmap nat kobj) : h !! fresh (dom h) = None.
Proof. apply not_elem_of_dom, is_fresh. Qed.

Lemma lookup_insert_fresh (h : gmap nat kobj) p o x :
  h !! p = Some o → <[fresh (dom h) := x]> h !! p = Some o.
Proof.
  intros Hp. rewrite lookup_insert_ne; [done|].
  intros Heq. rewrite <- Heq, fresh_unused in Hp. done.
Qed.

Lemma relock (m : nat) (X : gset nat) : m ∉ X → ({[m]} ∪ X) ∖ {[m]} = X.
Proof.
  intros Hm. apply set_eq. intros x.
  rewrite elem_of_difference, elem_of_union, !elem_of_singleton.
  split; [tauto|]. intros Hx. split; [tauto|]. by intros ->.
Qed.

Lemma length_rx_store rx buf : length (rx_store rx buf) = length buf.
Proof.
  unfold rx_store.
  rewrite length_take, length_app, length_map, length_drop. lia.
Qed.

(** ** [__spi_serial_tty_write], path by path *)

Ltac ksimpl :=
  unfold set_dev_count, set_heap, set_locked, set_drvdata, set_alloc_plan,
    set_trace, set_ttys in *;
  cbn [dev_count ttys driver_ttys heap locked drvdata alloc_plan spi_bus
       gpio_to_irq request_irq_ret register_device_ret init_termios_ret
       trace spi tty_minor tty_dev enq_buf fst snd] in *.

Ltac kstep := unfold bind at 1; ksimpl.

Ltac kunfold :=
  unfold devm_request_threaded_irq, tty_register_device, dev_dbg,
    tty_insert_flip_char, tty_flip_buffer_push, kzalloc, kmalloc,
    mutex_init, mutex_unlock, mutex_lock, store, load, kfree, log,
    modify, gets, ret, stuck, bind in *.

Lemma write_served stty s buf count discard_rx st :
  heap st !! stty = Some (obj_spi_tty s) →
  stty ∉ locked st →
  0 < count ≤ INT_MAX →
  served 3 (alloc_plan st) →
  __spi_serial_tty_write stty (Some buf) count discard_rx st =
    Some (to_int (xfer_len count discard_rx),
          set_trace
            (trace st ++ served_events st stty buf count discard_rx)
            (set_alloc_plan (drop 3 (alloc_plan st)) st)).
Proof.
  intros Hobj Hfree Hcount Hplan.
  apply served_S in Hplan as [Hp1 Hplan].
  apply served_S in Hplan as [Hp2 Hplan].
  apply served_S in Hplan as [Hp3 _].
  unfold __spi_serial_tty_write, served_events, alloc_events, free_events,
    slab_addr, xfer_of, xfer_len.
  cbn [seq map request heap_after].
  set (n := to_uint _).
  destruct (Z.eqb_spec count 0) as [?|_]; [lia|].
  destruct st as [dc tys dt h lk dd plan bus g2i rq reg tm tr]. ksimpl.
  kstep. unfold mutex_lock. ksimpl. rewrite Hobj.
  rewrite bool_decide_false by done.
  kstep. unfold kzalloc. rewrite kmalloc_served by done. ksimpl.
  kstep. rewrite kmalloc_served by done. ksimpl.
  kstep. rewrite kmalloc_served by done. ksimpl.
  set (p1 := fresh (dom h)).
  set (h1 := <[p1 := _]> h).
  set (p2 := fresh (dom h1)).
  set (h2 := <[p2 := _]> h1).
  set (p3 := fresh (dom h2)).
  set (h3 := <[p3 := _]> h2).
  assert (Hobj3 : h3 !! stty = Some (obj_spi_tty s))
    by (do 3 apply lookup_insert_fresh; done).
  assert (Hh2 : delete p3 h3 = h2) by apply delete_insert_id, fresh_unused.
  assert (Hh1 : delete p2 h2 = h1) by apply delete_insert_id, fresh_unused.
  assert (Hh : delete p1 h1 = h) by apply delete_insert_id, fresh_unused.
  assert (Hn : discard_rx = false → 0 ≤ n ≤ INT_MAX).
  { intros ->. unfold n. rewrite to_uint_small; unfold INT_MAX in *; lia. }
  clearbody h3 h2 h1 p3 p2 p1 n.
  set (fin := bind (kfree p3) _).
  assert (Hend : ∀ tr',
    fin (mk_kstate dc tys dt h3 ({[stty]} ∪ lk) dd (tail (tail (tail plan)))
           bus g2i rq reg tm tr') =
    Some (to_int n,
          mk_kstate dc tys dt h lk dd (drop 3 plan) bus g2i rq reg tm
            (tr' ++ [EvKfree p3; EvKfree p2; EvKfree p1;
                     EvMutexUnlock stty]))).
  { intros tr'. unfold fin, kfree, modify, mutex_unlock, ret. repeat kstep.
    rewrite Hh2, Hh1, Hh, Hobj, relock by done.
    rewrite <- !app_assoc. by destruct plan as [|? [|? [|? ?]]]. }
  clearbody fin.
  kstep. unfold load. ksimpl. rewrite Hobj3.
  kstep. unfold spi_sync, gets, log, modify, ret. repeat kstep.
  set (t := mk_transfer _ _ _ _ _).
  unfold exchange_events, poll_events, inbound. ksimpl.
  destruct discard_rx.
  - rewrite Hend. do 3 f_equal. rewrite <- !app_assoc. by cbn [app].
  - specialize (Hn eq_refl).
    unfold dev_dbg, tty_flip_buffer_push, ttys_at, gets.
    unfold log, modify, ret. ksimpl.
    destruct ((bus t).2 =? 0); ksimpl;
      (destruct (default None (tys !! 0%nat)) as [tty|]; ksimpl;
       [ rewrite feed_loop_spec;
           [ | lia | by rewrite length_rx_store, length_replicate
             | lia | lia ]
       | ]);
      ksimpl; rewrite Hend; do 3 f_equal; unfold delivered;
      rewrite <- ?app_assoc; cbn [app Z.to_nat Pos.to_nat Pos.iter_op Nat.add];
      by rewrite <- ?app_assoc.
Qed.

Lemma refused_head k plan :
  refused_at k plan →
  match k with
  | O => head plan = Some false
  | S k => head plan ≠ Some false ∧ refused_at k (tail plan)
  end.
Proof.
  intros [Hs Hk]. destruct k as [|k].
  - by destruct plan.
  - apply served_S in Hs as [? ?]. split; [done|]. split; [done|].
    by destruct plan.
Qed.

Lemma write_refused k stty s buf count discard_rx st :
  heap st !! stty = Some (obj_spi_tty s) →
  stty ∉ locked st →
  count ≠ 0 →
  (k < 3)%nat →
  refused_at k (alloc_plan st) →
  __spi_serial_tty_write stty (Some buf) count discard_rx st =
    Some (- ENOMEM,
          set_trace (trace st ++ refused_events k st stty count discard_rx)
            (set_heap (heap_after k (xfer_len count discard_rx) (heap st))
               (set_alloc_plan (drop (S k) (alloc_plan st)) st))).
Proof.
  intros Hobj Hfree Hcount Hk Hplan.
  unfold __spi_serial_tty_write, refused_events, alloc_events, slab_addr,
    xfer_len.
  set (n := to_uint _). clearbody n.
  destruct (Z.eqb_spec count 0) as [?|_]; [lia|].
  destruct st as [dc tys dt h lk dd plan bus g2i rq reg tm tr]. ksimpl.
  kstep. unfold mutex_lock. ksimpl. rewrite Hobj.
  rewrite bool_decide_false by done.
  unfold kzalloc, mutex_unlock, ret.
  apply refused_head in Hplan.
  destruct k as [|k]; [|destruct Hplan as [Hp1 Hplan];
    apply refused_head in Hplan;
    destruct k as [|k]; [|destruct Hplan as [Hp2 Hplan];
      apply refused_head in Hplan;
      destruct k as [|k]; [|lia]]].
  - kstep. rewrite kmalloc_refused by done. ksimpl.
    kstep. rewrite Hobj, relock by done.
    rewrite <- !app_assoc. simpl. destruct plan; [done|reflexivity].
  - kstep. rewrite kmalloc_served by done. ksimpl.
    kstep. rewrite kmalloc_refused by done. ksimpl.
    kstep. rewrite (lookup_insert_fresh _ _ _ _ Hobj), relock by done.
    rewrite <- !app_assoc. simpl.
    destruct plan as [|? [|? ?]]; (done || reflexivity).
  - kstep. rewrite kmalloc_served by done. ksimpl.
    kstep. rewrite kmalloc_served by done. ksimpl.
    kstep. rewrite kmalloc_refused by done. ksimpl.
    kstep.
    rewrite (lookup_insert_fresh _ _ _ _ (lookup_insert_fresh _ _ _ _ Hobj)).
    rewrite relock by done.
    rewrite <- !app_assoc. simpl.
    destruct plan as [|? [|? [|? ?]]]; (done || reflexivity).
Qed.

Lemma write_nothing stty buf count discard_rx st :
  buf = None ∨ count = 0 →
  __spi_serial_tty_write stty buf count discard_rx st = Some (0, st).
Proof.
  intros [->| ->]; [done|]. by destruct buf.
Qed.

Lemma plan_cases plan :
  served 3 plan ∨ ∃ k, (k < 3)%nat ∧ refused_at k plan.
Proof.
  unfold refused_at, served.
  destruct plan as [|[] [|[] [|[] plan]]]; simpl;
    first [ left; by repeat constructor
          | right; exists 0%nat; split; [lia|]; by repeat constructor
          | right; exists 1%nat; split; [lia|]; by repeat constructor
          | right; exists 2%nat; split; [lia|]; by repeat constructor ].
Qed.

(** A call that comes back found the instance in place and its mutex
    free. *)
Lemma write_entered stty buf count discard_rx st r st' :
  count ≠ 0 →
  __spi_serial_tty_write stty (Some buf) count discard_rx st = Some (r, st') →
  (∃ s, heap st !! stty = Some (obj_spi_tty s)) ∧ stty ∉ locked st.
Proof.
  intros Hcount. unfold __spi_serial_tty_write.
  destruct (Z.eqb_spec count 0) as [?|_]; [done|].
  unfold bind at 1, mutex_lock.
  destruct (heap st !! stty) as [[|s]|]; [done| |done].
  destruct (bool_decide_reflect (stty ∈ locked st)); [done|]. eauto.
Qed.

(** Every call with a payload takes one of four paths. *)
Lemma write_cases stty buf count discard_rx st r st' :
  0 < count ≤ INT_MAX →
  __spi_serial_tty_write stty (Some buf) count discard_rx st = Some (r, st') →
  (served 3 (alloc_plan st) ∧
   r = to_int (xfer_len count discard_rx) ∧
   st' = set_trace
           (trace st ++ served_events st stty buf count discard_rx)
           (set_alloc_plan (drop 3 (alloc_plan st)) st)) ∨
  (∃ k, (k < 3)%nat ∧ refused_at k (alloc_plan st) ∧
   r = - ENOMEM ∧
   st' = set_trace (trace st ++ refused_events k st stty count discard_rx)
           (set_heap (heap_after k (xfer_len count discard_rx) (heap st))
              (set_alloc_plan (drop (S k) (alloc_plan st)) st))).
Proof.
  intros Hcount Hrun.
  assert (Hnz : count ≠ 0) by lia.
  destruct (write_entered _ _ _ _ _ _ _ Hnz Hrun) as [[s Hobj] Hfree].
  destruct (plan_cases (alloc_plan st)) as [Hplan|(k & Hk & Hplan)].
  - left. rewrite (write_served _ s) in Hrun by done. by simplify_eq.
  - right. exists k.
    rewrite (write_refused k _ s) in Hrun by (done || lia). by simplify_eq.
Qed.

Lemma write_events stty buf count discard_rx st r evs st' :
  0 < count ≤ INT_MAX →
  runs (__spi_serial_tty_write stty (Some buf) count discard_rx) st r evs st' →
  (served 3 (alloc_plan st) ∧
   r = to_int (xfer_len count discard_rx) ∧
   evs = served_events st stty buf count discard_rx) ∨
  (∃ k, (k < 3)%nat ∧ refused_at k (alloc_plan st) ∧
   r = - ENOMEM ∧
   evs = refused_events k st stty count discard_rx).
Proof.
  intros Hcount [Hrun Htr].
  destruct (write_cases _ _ _ _ _ _ _ Hcount Hrun)
    as [(Hplan & -> & ->)|(k & Hk & Hplan & -> & ->)];
    ksimpl; apply app_inv_head in Htr; subst evs; eauto 10.
Qed.

Lemma xfer_len_small count discard_rx :
  0 < count ≤ INT_MAX →
  xfer_len count discard_rx =
    (if discard_rx then Z.min SPI_TTY_MSG_LEN count else count) ∧
  to_int (xfer_len count discard_rx) = xfer_len count discard_rx.
Proof.
  unfold xfer_len, INT_MAX, SPI_TTY_MSG_LEN. intros Hcount.
  assert (to_uint (if discard_rx then 64 `min` count else count) =
          if discard_rx then 64 `min` count else count) as ->
    by (apply to_uint_small; destruct discard_rx; lia).
  split; [done|]. apply to_int_small. destruct discard_rx; lia.
Qed.

Lemma transfers_of_flip i l :
  transfers_of (map (EvInsertFlipChar i) l) = [].
Proof. by induction l. Qed.

Lemma transfers_of_poll st t : transfers_of (poll_events st t) = [].
Proof.
  unfold poll_events.
  destruct (_ =? 0), (ttys_at st 0); simpl; try done;
    unfold transfers_of; rewrite omap_app; fold transfers_of;
    by rewrite transfers_of_flip.
Qed.

Lemma transfers_of_exchange st t discard_rx :
  transfers_of (exchange_events st t discard_rx) = [t].
Proof.
  unfold exchange_events. destruct discard_rx; [done|].
  change (transfers_of (EvSpiBegin t :: EvSpiEnd (spi_bus st t).2 ::
                        poll_events st t))
    with (t :: transfers_of (poll_events st t)).
  by rewrite transfers_of_poll.
Qed.

Lemma transfers_of_app evs1 evs2 :
  transfers_of (evs1 ++ evs2) = transfers_of evs1 ++ transfers_of evs2.
Proof. apply omap_app. Qed.

(** The transfers of a call: the one it builds when the slab serves it,
    none otherwise. *)
Lemma write_transfers stty buf count discard_rx st r evs st' :
  0 < count ≤ INT_MAX →
  runs (__spi_serial_tty_write stty (Some buf) count discard_rx) st r evs st' →
  (served 3 (alloc_plan st) ∧
   transfers_of evs = [xfer_of st buf count discard_rx]) ∨
  ((∃ k, (k < 3)%nat ∧ refused_at k (alloc_plan st)) ∧ transfers_of evs = []).
Proof.
  intros Hcount Hrun.
  destruct (write_events _ _ _ _ _ _ _ _ Hcount Hrun)
    as [(Hplan & _ & ->)|(k & Hk & Hplan & _ & ->)]; [left|right].
  - split; [done|]. unfold served_events.
    change (EvMutexLock stty :: ?l) with ([EvMutexLock stty] ++ l).
    by rewrite !transfers_of_app, transfers_of_exchange.
  - split; [eauto|]. unfold refused_events.
    by destruct k as [|[|[|k]]]; [..|lia].
Qed.

Lemma served_not_refused k plan :
  (k < 3)%nat → served 3 plan → refused_at k plan → False.
Proof.
  unfold served, refused_at. intros Hk Hs [_ Hr].
  rewrite Forall_lookup in Hs.
  assert (take 3 plan !! k = Some false) as Hr'
    by (rewrite lookup_take_lt; done).
  by specialize (Hs _ _ Hr').
Qed.

(** ** [spi_tty_probe] *)

(** The enquiry buffer as [spi_tty_probe] fills it. *)
Lemma probe_enq_buf :
  <[Z.to_nat (sizeof_enq_buf - 1) := 0]>
    (replicate (Z.to_nat sizeof_enq_buf) SPI_TTY_ENQUIRY) =
  replicate 64 SPI_TTY_ENQUIRY ++ [0].
Proof. reflexivity. Qed.

(** After a probe that returned 0, the instance registered for the
    device carries the enquiry buffer. *)
Lemma probe_instance sdev st0 st1 data s :
  spi_tty_probe sdev st0 = Some (0, st1) →
  drvdata st1 !! spi_dev sdev = Some data →
  heap st1 !! data = Some (obj_spi_tty s) →
  enq_buf s = replicate 64 SPI_TTY_ENQUIRY ++ [0].
Proof.
  unfold spi_tty_probe.
  destruct st0 as [dc tys dt h lk dd plan bus g2i rq reg tm tr].
  kunfold. ksimpl.
  destruct (SPI_SERIAL_TTY_MINORS <=? dc); [done|].
  set (p := fresh (dom h)).
  destruct plan as [|[] plan]; ksimpl; try done;
    cbn [new_obj]; repeat (rewrite lookup_insert_eq; ksimpl);
    (destruct (Z.eqb_spec (rq (g2i (to_int (to_uint (platform_data sdev)))))
       0) as [Hrq|Hrq]; [|intros; by simplify_eq]);
    ksimpl; repeat (rewrite lookup_insert_eq; ksimpl);
    (destruct (reg dc) as [dev|e]);
    ksimpl; repeat (rewrite lookup_insert_eq; ksimpl);
    intros Heq Hdd Hheap; simplify_eq; ksimpl;
    (assert (data = fresh (dom h)) as ->
       by (revert Hdd; rewrite ?lookup_insert; repeat case_decide;
           intros; by simplify_eq));
    rewrite ?lookup_delete_eq, ?lookup_insert_eq in Hheap;
    by simplify_eq.
Qed.

(** The interrupt handler is one poll with the instance's enquiry
    buffer. *)
Lemma irq_handler_poll irq data st r st' :
  spi_tty_irq_handler irq data st = Some (r, st') →
  ∃ s r0,
    heap st !! data = Some (obj_spi_tty s) ∧
    __spi_serial_tty_write data (Some (enq_buf s)) sizeof_enq_buf false st =
      Some (r0, st').
Proof.
  unfold spi_tty_irq_handler, bind at 1, load.
  destruct (heap st !! data) as [[|s]|]; try done.
  unfold bind, ret.
  destruct (__spi_serial_tty_write _ _ _ _ st) as [[r0 st2]|] eqn:Hw;
    [|done].
  intros ?. simplify_eq. eauto.
Qed.

(** * The claims *)

(** C1, as amended: every enquiry poll triggered by the interrupt hands the
    transport the 65-byte frame made of 64 bytes 0x05 and a final 0x00,
    with transfer length 65; when the slab serves the call there is
    exactly one such transfer.  This holds in every state in which the
    instance is as [spi_tty_probe] left it. *)
Theorem enquiry_poll_frame sdev st0 st1 data st irq r evs st' :
  spi_tty_probe sdev st0 = Some (0, st1) →
  drvdata st1 !! spi_dev sdev = Some data →
  heap st !! data = heap st1 !! data →
  runs (spi_tty_irq_handler irq data) st r evs st' →
  (∀ t, t ∈ transfers_of evs →
        len t = 65 ∧ frame t = replicate 64 0x05 ++ [0x00]) ∧
  (served 3 (alloc_plan st) → ∃ t, transfers_of evs = [t]).
Proof.
  intros Hprobe Hdd Hsame [Hrun Htr].
  destruct (irq_handler_poll _ _ _ _ _ Hrun) as (s & r0 & Hobj & Hw).
  assert (Hbuf : enq_buf s = replicate 64 SPI_TTY_ENQUIRY ++ [0]).
  { apply (probe_instance sdev st0 st1 data); [done..|]. by rewrite <- Hsame. }
  assert (Hcount : 0 < sizeof_enq_buf ≤ INT_MAX) by done.
  destruct (write_transfers _ _ _ _ _ _ _ _ Hcount (conj Hw Htr))
    as [[Hplan ->]|[[k [Hk Hplan]] ->]].
  - split; [|eauto]. intros t ->%list_elem_of_singleton.
    split; [done|]. unfold frame, xfer_of. simpl. by rewrite Hbuf.
  - split; [by intros t ?%elem_of_nil|].
    intros Hs. by destruct (served_not_refused k _ Hk Hs Hplan).
Qed.

Lemma enquiry_poll_frame_witness :
  let st1 := after (spi_tty_probe demo_spi) (demo_state demo_bus) in
  let st' := after (spi_tty_irq_handler 17 0%nat) (probed []) in
  (spi_tty_probe demo_spi (demo_state demo_bus) = Some (0, st1) ∧
   drvdata st1 !! spi_dev demo_spi = Some 0%nat ∧
   heap (probed []) !! 0%nat = heap st1 !! 0%nat ∧
   runs (spi_tty_irq_handler 17 0%nat) (probed []) IRQ_HANDLED
     (calls (spi_tty_irq_handler 17 0%nat) (probed [])) st') ∧
  (∀ t, t ∈ transfers_of (calls (spi_tty_irq_handler 17 0%nat) (probed [])) →
        len t = 65 ∧ frame t = replicate 64 0x05 ++ [0x00]) ∧
  (served 3 (alloc_plan (probed [])) →
   ∃ t, transfers_of (calls (spi_tty_irq_handler 17 0%nat) (probed [])) = [t]).
Proof.
  intros st1 st'.
  assert (H1 : spi_tty_probe demo_spi (demo_state demo_bus) = Some (0, st1))
    by (vm_compute; reflexivity).
  assert (H2 : drvdata st1 !! spi_dev demo_spi = Some 0%nat)
    by (vm_compute; reflexivity).
  assert (H3 : heap (probed []) !! 0%nat = heap st1 !! 0%nat)
    by (vm_compute; reflexivity).
  assert (H4 : runs (spi_tty_irq_handler 17 0%nat) (probed []) IRQ_HANDLED
                 (calls (spi_tty_irq_handler 17 0%nat) (probed [])) st')
    by (split; vm_compute; reflexivity).
  split; [done|].
  exact (enquiry_poll_frame demo_spi (demo_state demo_bus) st1 0%nat (probed []) 17
           IRQ_HANDLED _ st' H1 H2 H3 H4).
Defined.

(** C1 as stated fails: on the demo machine the poll hands over 65 bytes,
    64 of them 0x05, not the 64-byte frame with 63 of them. *)
Lemma enquiry_poll_frame_is_not_64 :
  map (λ t, (len t, frame t))
    (transfers_of (calls (spi_tty_irq_handler 17 0%nat) (probed []))) =
    [(65, replicate 64 0x05 ++ [0x00])] ∧
  map (λ t, (len t, frame t))
    (transfers_of (calls (spi_tty_irq_handler 17 0%nat) (probed []))) ≠
    [(64, replicate 63 0x05 ++ [0x00])].
Proof. split; [vm_compute; reflexivity|vm_compute; discriminate]. Qed.

(** C3, as amended: a probe entered while the instance count equals the
    capacity of 1 fails with the out-of-memory error number [-ENOMEM]
    (not with a busy one), and leaves the instance count and the whole
    state as they were. *)
Theorem probe_at_capacity sdev st :
  dev_count st = SPI_SERIAL_TTY_MINORS →
  spi_tty_probe sdev st = Some (- ENOMEM, st).
Proof.
  intros Hdc. unfold spi_tty_probe, bind at 1, gets at 1.
  by rewrite Hdc.
Qed.

Lemma probe_at_capacity_witness :
  dev_count (probed []) = SPI_SERIAL_TTY_MINORS ∧
  spi_tty_probe demo_spi (probed []) = Some (- ENOMEM, probed []).
Proof.
  assert (H : dev_count (probed []) = SPI_SERIAL_TTY_MINORS)
    by (vm_compute; reflexivity).
  split; [exact H|]. exact (probe_at_capacity demo_spi (probed []) H).
Defined.

(** C3 as stated fails: with one instance probed, a second probe returns
    -12, which is [-ENOMEM], and not the busy error [-EBUSY]. *)
Lemma probe_at_capacity_is_not_busy :
  dev_count (probed []) = 1 ∧
  result (spi_tty_probe demo_spi) (probed []) = Some (-12) ∧
  result (spi_tty_probe demo_spi) (probed []) ≠ Some (- EBUSY).
Proof. repeat split; vm_compute; (reflexivity || discriminate). Qed.

(** C7: with a null buffer or a zero count, [__spi_serial_tty_write]
    returns 0 and leaves the state untouched: no mutex taken, nothing
    allocated, no exchange, no call recorded. *)
Theorem write_empty_payload stty buf count discard_rx st :
  buf = None ∨ count = 0 →
  __spi_serial_tty_write stty buf count discard_rx st = Some (0, st) ∧
  calls (__spi_serial_tty_write stty buf count discard_rx) st = [].
Proof.
  intros Hempty. pose proof (write_nothing stty _ _ discard_rx st Hempty) as H.
  split; [done|]. unfold calls, after. rewrite H. apply drop_all.
Qed.

Lemma write_empty_payload_witness :
  (Some [65; 66] = None ∨ 0 = 0) ∧
  __spi_serial_tty_write 0%nat (Some [65; 66]) 0 true (probed []) =
    Some (0, probed []) ∧
  calls (__spi_serial_tty_write 0%nat (Some [65; 66]) 0 true) (probed []) = [].
Proof.
  assert (H : Some [65; 66] = None ∨ 0 = 0) by (right; reflexivity).
  split; [exact H|].
  exact (write_empty_payload 0%nat (Some [65; 66]) 0 true (probed []) H).
Defined.

(** C10: for every index, zero or not, [spi_serial_tty_lookup] returns
    the slot [ttys[0]] and changes nothing; no index gets [NULL] when a
    tty is installed, and two indices are never told apart. *)
Theorem lookup_ignores_index :
  (∀ idx st, spi_serial_tty_lookup idx st = Some (ttys_at st 0, st)) ∧
  (∀ idx idx' st, spi_serial_tty_lookup idx st = spi_serial_tty_lookup idx' st).
Proof.
  assert (H : ∀ idx st, spi_serial_tty_lookup idx st = Some (ttys_at st 0, st)).
  { intros idx st. unfold spi_serial_tty_lookup. by destruct (idx =? 0). }
  split; [done|]. intros idx idx' st. by rewrite !H.
Qed.

(** C9: every transfer [__spi_serial_tty_write] hands to the bus has a
    delay of 25 microseconds and a clock of 115200 when the answer is
    discarded, of 9600 when it is not; a call the slab serves hands over
    exactly one transfer. *)
Theorem transfer_delay_and_speed stty buf count discard_rx st r evs st' :
  0 < count ≤ INT_MAX →
  runs (__spi_serial_tty_write stty (Some buf) count discard_rx) st r evs st' →
  (∀ t, t ∈ transfers_of evs →
        delay_usecs t = 25 ∧
        speed_hz t = if discard_rx then 115200 else 9600) ∧
  (served 3 (alloc_plan st) → ∃ t, transfers_of evs = [t]).
Proof.
  intros Hcount Hrun.
  destruct (write_transfers _ _ _ _ _ _ _ _ Hcount Hrun)
    as [[Hplan ->]|[[k [Hk Hplan]] ->]].
  - split; [|eauto]. intros t ->%list_elem_of_singleton.
    by destruct discard_rx.
  - split; [by intros t ?%elem_of_nil|].
    intros Hs. by destruct (served_not_refused k _ Hk Hs Hplan).
Qed.

Lemma transfer_delay_and_speed_witness :
  let c := __spi_serial_tty_write 0%nat (Some [72; 105]) 2 true in
  (0 < 2 ≤ INT_MAX ∧
   runs c (probed []) 2 (calls c (probed [])) (after c (probed []))) ∧
  (∀ t, t ∈ transfers_of (calls c (probed [])) →
        delay_usecs t = 25 ∧ speed_hz t = 115200) ∧
  (served 3 (alloc_plan (probed [])) →
   ∃ t, transfers_of (calls c (probed [])) = [t]).
Proof.
  intros c.
  assert (H1 : 0 < 2 ≤ INT_MAX) by done.
  assert (H2 : runs c (probed []) 2 (calls c (probed [])) (after c (probed [])))
    by (split; vm_compute; reflexivity).
  split; [done|].
  exact (transfer_delay_and_speed 0%nat [72; 105] 2 true (probed []) 2 _ _
           H1 H2).
Defined.

(** A call the slab serves, spelled out. *)
Lemma write_served_runs stty s buf count discard_rx st :
  heap st !! stty = Some (obj_spi_tty s) →
  stty ∉ locked st →
  0 < count ≤ INT_MAX →
  served 3 (alloc_plan st) →
  runs (__spi_serial_tty_write stty (Some buf) count discard_rx) st
    (if discard_rx then Z.min SPI_TTY_MSG_LEN count else count)
    (served_events st stty buf count discard_rx)
    (set_trace (trace st ++ served_events st stty buf count discard_rx)
       (set_alloc_plan (drop 3 (alloc_plan st)) st)).
Proof.
  intros Hobj Hfree Hcount Hplan. split; [|done].
  rewrite (write_served _ s) by done.
  destruct (xfer_len_small count discard_rx Hcount) as [Hn ->].
  by rewrite Hn.
Qed.

Lemma elem_of_served_events e st stty buf count discard_rx :
  e ∈ exchange_events st (xfer_of st buf count discard_rx) discard_rx →
  e ∈ served_events st stty buf count discard_rx.
Proof.
  intros He. unfold served_events.
  apply elem_of_cons. right.
  apply elem_of_app. right. apply elem_of_app. by left.
Qed.

(** C4: when every allocation succeeds, whatever status the transport
    reports for the exchange, [__spi_serial_tty_write] returns the byte
    count it attempted, which is the length of the one transfer it
    handed over; the status shows up in the trace only. *)
Theorem transport_status_not_propagated
    stty s buf count discard_rx st status :
  heap st !! stty = Some (obj_spi_tty s) →
  stty ∉ locked st →
  0 < count ≤ INT_MAX →
  served 3 (alloc_plan st) →
  (spi_bus st (xfer_of st buf count discard_rx)).2 = status →
  ∃ evs st',
    runs (__spi_serial_tty_write stty (Some buf) count discard_rx) st
      (len (xfer_of st buf count discard_rx)) evs st' ∧
    transfers_of evs = [xfer_of st buf count discard_rx] ∧
    len (xfer_of st buf count discard_rx) =
      (if discard_rx then Z.min SPI_TTY_MSG_LEN count else count) ∧
    EvSpiEnd status ∈ evs.
Proof.
  intros Hobj Hfree Hcount Hplan Hstatus.
  pose proof (write_served_runs _ _ buf _ discard_rx _ Hobj Hfree Hcount Hplan)
    as Hrun.
  destruct (xfer_len_small count discard_rx Hcount) as [Hn _].
  eexists _, _. cbn [len xfer_of]. rewrite Hn. split; [exact Hrun|].
  split; [|split; [done|]].
  - destruct (write_transfers _ _ _ _ _ _ _ _ Hcount Hrun)
      as [[_ Ht]|[(k & Hk & Hr) _]]; [done|].
    by destruct (served_not_refused k _ Hk Hplan Hr).
  - apply elem_of_served_events. unfold exchange_events.
    rewrite Hstatus. apply elem_of_cons. right. apply elem_of_cons. by left.
Qed.

Lemma transport_status_not_propagated_witness :
  let st := probed_on broken_bus [] in
  let t := xfer_of st [72; 105; 33] 3 true in
  (heap st !! 0%nat =
     Some (obj_spi_tty (mk_stty (Some 3%nat) 0 (Some 7%nat)
                          (replicate 64 0x05 ++ [0x00]))) ∧
   (0%nat ∉ locked st) ∧
   0 < 3 ≤ INT_MAX ∧
   served 3 (alloc_plan st) ∧
   (spi_bus st t).2 = -5) ∧
  ∃ evs st',
    runs (__spi_serial_tty_write 0%nat (Some [72; 105; 33]) 3 true) st
      (len t) evs st' ∧
    transfers_of evs = [t] ∧
    len t = Z.min SPI_TTY_MSG_LEN 3 ∧
    EvSpiEnd (-5) ∈ evs.
Proof.
  intros st t.
  assert (H1 : heap st !! 0%nat =
     Some (obj_spi_tty (mk_stty (Some 3%nat) 0 (Some 7%nat)
                          (replicate 64 0x05 ++ [0x00]))))
    by (vm_compute; reflexivity).
  assert (H2 : 0%nat ∉ locked st)
    by (intros Hin; apply (bool_decide_pack _) in Hin; vm_compute in Hin;
        exact Hin).
  assert (H3 : 0 < 3 ≤ INT_MAX) by done.
  assert (H4 : served 3 (alloc_plan st)) by (vm_compute; constructor).
  assert (H5 : (spi_bus st t).2 = -5) by reflexivity.
  split; [done|].
  exact (transport_status_not_propagated 0%nat _ [72; 105; 33] 3 true st (-5)
           H1 H2 H3 H4 H5).
Defined.

Ltac by_evaluation :=
  match goal with
  | |- _ ∉ _ =>
      let Hin := fresh in
      intros Hin; apply (bool_decide_pack _) in Hin; vm_compute in Hin;
      exact Hin
  | |- runs _ _ _ _ _ => split; vm_compute; reflexivity
  | |- served _ _ => vm_compute; repeat constructor
  | |- refused_at _ _ => split; vm_compute; repeat constructor
  | |- _ => vm_compute; reflexivity
  end.

Lemma flips_of_app evs1 evs2 :
  flips_of (evs1 ++ evs2) = flips_of evs1 ++ flips_of evs2.
Proof. apply omap_app. Qed.

Lemma flips_of_map i l :
  flips_of (map (EvInsertFlipChar i) l) = map (pair i) l.
Proof. induction l as [|c l IH]; [done|]. simpl. by f_equal. Qed.

Lemma flips_of_served st stty buf count tty :
  ttys_at st 0 = Some tty →
  flips_of (served_events st stty buf count false) =
    map (pair (tty_index tty))
      (delivered (inbound st (xfer_of st buf count false))).
Proof.
  intros Htty. unfold served_events, exchange_events, poll_events.
  rewrite Htty.
  change (EvMutexLock stty :: ?l) with ([EvMutexLock stty] ++ l).
  change (EvSpiBegin ?t :: EvSpiEnd ?x :: ?l)
    with ([EvSpiBegin t; EvSpiEnd x] ++ l).
  rewrite !flips_of_app, flips_of_map.
  destruct (_ =? 0); simpl; by rewrite !app_nil_r.
Qed.

(** The bytes the spec names: those at the indices 1 to the end that
    are not null, in the order of the buffer. *)
Lemma delivered_lookup rx c :
  c ∈ delivered rx ↔ ∃ i, (1 ≤ i)%nat ∧ rx !! i = Some c ∧ c ≠ 0.
Proof.
  unfold delivered. rewrite list_elem_of_filter, list_elem_of_lookup.
  split.
  - intros [Hc [i Hi]]. rewrite lookup_drop in Hi.
    exists (1 + i)%nat. split; [lia|done].
  - intros (i & Hi & Hrx & Hc). split; [done|].
    exists (i - 1)%nat. rewrite lookup_drop.
    by replace (1 + (i - 1))%nat with i by lia.
Qed.

(** C5: a poll (the answer is not discarded) made while a tty is
    installed in [ttys[0]] hands that tty exactly the non-null bytes of
    the inbound buffer from index 1 on, in order: index 0 is skipped and
    null bytes are dropped.  An inbound buffer [00 'A' 00 'B' 00] delivers
    ['A'; 'B']. *)
Theorem poll_delivery stty s tty buf count st :
  heap st !! stty = Some (obj_spi_tty s) →
  stty ∉ locked st →
  0 < count ≤ INT_MAX →
  served 3 (alloc_plan st) →
  ttys_at st 0 = Some tty →
  ∃ r evs st',
    runs (__spi_serial_tty_write stty (Some buf) count false) st r evs st' ∧
    let rx := inbound st (xfer_of st buf count false) in
    length rx = Z.to_nat count ∧
    flips_of evs =
      map (pair (tty_index tty)) (filter (λ c, c ≠ 0) (drop 1 rx)) ∧
    (rx = [0; 65; 0; 66; 0] →
     flips_of evs = [(tty_index tty, 65); (tty_index tty, 66)]).
Proof.
  intros Hobj Hfree Hcount Hplan Htty.
  pose proof (write_served_runs _ _ buf _ false _ Hobj Hfree Hcount Hplan)
    as Hrun.
  eexists _, _, _. split; [exact Hrun|]. cbn zeta.
  rewrite (flips_of_served _ _ _ _ _ Htty).
  split; [|split; [done|]].
  - unfold inbound. rewrite length_rx_store, length_replicate.
    cbn [len xfer_of]. by destruct (xfer_len_small count false Hcount) as [-> _].
  - by intros ->.
Qed.

Lemma poll_delivery_witness :
  let st := attached [] in
  (heap st !! 0%nat =
     Some (obj_spi_tty (mk_stty (Some 3%nat) 0 (Some 7%nat)
                          (replicate 64 0x05 ++ [0x00]))) ∧
   (0%nat ∉ locked st) ∧
   0 < 5 ≤ INT_MAX ∧
   served 3 (alloc_plan st) ∧
   ttys_at st 0 = Some (mk_tty 1 7 1)) ∧
  ∃ r evs st',
    runs (__spi_serial_tty_write 0%nat (Some [5; 5; 5; 5; 5]) 5 false) st
      r evs st' ∧
    let rx := inbound st (xfer_of st [5; 5; 5; 5; 5] 5 false) in
    length rx = Z.to_nat 5 ∧
    flips_of evs = map (pair 1%nat) (filter (λ c, c ≠ 0) (drop 1 rx)) ∧
    (rx = [0; 65; 0; 66; 0] → flips_of evs = [(1%nat, 65); (1%nat, 66)]).
Proof.
  intros st.
  assert (H1 : heap st !! 0%nat =
     Some (obj_spi_tty (mk_stty (Some 3%nat) 0 (Some 7%nat)
                          (replicate 64 0x05 ++ [0x00]))))
    by by_evaluation.
  assert (H2 : 0%nat ∉ locked st) by by_evaluation.
  assert (H3 : 0 < 5 ≤ INT_MAX) by done.
  assert (H4 : served 3 (alloc_plan st)) by by_evaluation.
  assert (H5 : ttys_at st 0 = Some (mk_tty 1 7 1)) by by_evaluation.
  split; [done|].
  exact (poll_delivery 0%nat _ _ [5; 5; 5; 5; 5] 5 st H1 H2 H3 H4 H5).
Defined.

(** Every call with a payload comes back once it has the mutex. *)
Lemma write_returns stty s buf count discard_rx st :
  heap st !! stty = Some (obj_spi_tty s) →
  stty ∉ locked st →
  0 < count ≤ INT_MAX →
  ∃ r evs st',
    runs (__spi_serial_tty_write stty (Some buf) count discard_rx) st
      r evs st'.
Proof.
  intros Hobj Hfree Hcount.
  destruct (plan_cases (alloc_plan st)) as [Hplan|(k & Hk & Hplan)].
  - eexists _, _, _. by apply (write_served_runs _ s).
  - eexists _, _, _. split.
    + apply (write_refused k _ s); (done || lia).
    + done.
Qed.

(** What holds of every call made while the mutex is held on the served
    path holds of the whole exchange. *)
Lemma exchange_events_Forall (P : event → Prop) st t discard_rx :
  (∀ t, P (EvSpiBegin t)) →
  (∀ x, P (EvSpiEnd x)) →
  (∀ n x, P (EvDevDbg n x)) →
  (∀ i c, P (EvInsertFlipChar i c)) →
  (∀ i, P (EvFlipBufferPush i)) →
  Forall P (exchange_events st t discard_rx).
Proof.
  intros Hb He Hd Hc Hp. unfold exchange_events, poll_events.
  repeat apply Forall_cons_2; [done..|].
  destruct discard_rx; [done|].
  apply Forall_app_2; [by destruct (_ =? 0); repeat constructor|].
  destruct (ttys_at st 0); [|done].
  apply Forall_app_2; [|by repeat constructor].
  apply Forall_fmap, Forall_true. intros c. apply Hc.
Qed.

Lemma omap_nil {A} (f : event → option A) evs :
  Forall (λ e, f e = None) evs → omap f evs = [].
Proof. induction 1 as [|e evs He _ IH]; [done|]. simpl. by rewrite He. Qed.

Lemma byte_requests_app evs1 evs2 :
  byte_requests (evs1 ++ evs2) = byte_requests evs1 ++ byte_requests evs2.
Proof. apply omap_app. Qed.

Lemma byte_requests_served st stty buf count discard_rx :
  byte_requests (served_events st stty buf count discard_rx) =
    [xfer_len count discard_rx].
Proof.
  unfold served_events.
  change (EvMutexLock stty :: ?l) with ([EvMutexLock stty] ++ l).
  rewrite !byte_requests_app.
  unfold byte_requests at 3.
  rewrite omap_nil by (by apply exchange_events_Forall).
  done.
Qed.

Lemma byte_requests_refused k st stty count discard_rx :
  (k < 3)%nat →
  byte_requests (refused_events k st stty count discard_rx) =
    [xfer_len count discard_rx].
Proof. intros Hk. by destruct k as [|[|[|k]]]; [..|lia]. Qed.

(** C6, as amended: for a non-empty payload of [count] bytes the first
    thing requested from the slab is the inbound buffer, of
    [min(64, count)] bytes when the answer is discarded and of [count]
    bytes otherwise, and no other byte buffer is requested; so a
    discarding write never asks for more than 64 bytes, and when all
    three allocations succeed it returns that length, which is [count]
    for a payload of at most 64 bytes. *)
Theorem inbound_buffer_size stty s buf count (discard_rx : bool) st :
  heap st !! stty = Some (obj_spi_tty s) →
  stty ∉ locked st →
  0 < count ≤ INT_MAX →
  let n := if discard_rx then Z.min SPI_TTY_MSG_LEN count else count in
  ∃ r evs st',
    runs (__spi_serial_tty_write stty (Some buf) count discard_rx) st
      r evs st' ∧
    (∃ p rest, evs = EvMutexLock stty :: EvKmalloc (size_bytes n) p :: rest) ∧
    byte_requests evs = [n] ∧
    (discard_rx = true → n ≤ 64) ∧
    (served 3 (alloc_plan st) →
     r = n ∧ (discard_rx = true → count ≤ 64 → r = count)).
Proof.
  intros Hobj Hfree Hcount n.
  destruct (xfer_len_small count discard_rx Hcount) as [Hn Hint].
  fold n in Hn.
  assert (Hcap : discard_rx = true → n ≤ 64)
    by (intros ->; unfold n, SPI_TTY_MSG_LEN; lia).
  assert (Hsmall : discard_rx = true → count ≤ 64 → n = count)
    by (intros ->; unfold n, SPI_TTY_MSG_LEN; lia).
  destruct (plan_cases (alloc_plan st)) as [Hplan|(k & Hk & Hplan)].
  - pose proof (write_served_runs _ _ buf _ discard_rx _ Hobj Hfree Hcount
                  Hplan) as Hrun.
    eexists _, _, _. split; [exact Hrun|].
    rewrite byte_requests_served, Hn.
    unfold served_events, alloc_events. rewrite Hn. cbn [seq map request].
    eauto 10.
  - eexists _, _, _. split.
    { split; [apply (write_refused k _ s); (done || lia)|]. done. }
    rewrite byte_requests_refused, Hn by done.
    unfold refused_events, alloc_events. rewrite Hn.
    split; [|split; [done|split; [done|]]].
    + by destruct k as [|[|[|k]]]; [eauto..|lia].
    + intros Hs. by destruct (served_not_refused k _ Hk Hs Hplan).
Qed.

Lemma inbound_buffer_size_witness :
  let st := probed [] in
  (heap st !! 0%nat =
     Some (obj_spi_tty (mk_stty (Some 3%nat) 0 (Some 7%nat)
                          (replicate 64 0x05 ++ [0x00]))) ∧
   (0%nat ∉ locked st) ∧
   0 < 3 ≤ INT_MAX) ∧
  ∃ r evs st',
    runs (__spi_serial_tty_write 0%nat (Some [72; 105; 33]) 3 true) st
      r evs st' ∧
    (∃ p rest,
       evs = EvMutexLock 0 ::
             EvKmalloc (size_bytes (Z.min SPI_TTY_MSG_LEN 3)) p :: rest) ∧
    byte_requests evs = [Z.min SPI_TTY_MSG_LEN 3] ∧
    (true = true → Z.min SPI_TTY_MSG_LEN 3 ≤ 64) ∧
    (served 3 (alloc_plan st) →
     r = Z.min SPI_TTY_MSG_LEN 3 ∧ (true = true → 3 ≤ 64 → r = 3)).
Proof.
  intros st.
  assert (H1 : heap st !! 0%nat =
     Some (obj_spi_tty (mk_stty (Some 3%nat) 0 (Some 7%nat)
                          (replicate 64 0x05 ++ [0x00]))))
    by by_evaluation.
  assert (H2 : 0%nat ∉ locked st) by by_evaluation.
  assert (H3 : 0 < 3 ≤ INT_MAX) by done.
  split; [done|].
  exact (inbound_buffer_size 0%nat _ [72; 105; 33] 3 true st H1 H2 H3).
Defined.

(** C6 as stated fails: a one-byte discarding write whose inbound buffer
    the slab refuses returns -12, not the payload length 1. *)
Lemma write_does_not_always_return_length :
  result (__spi_serial_tty_write 0%nat (Some [65]) 1 true)
    (probed [false]) = Some (- ENOMEM) ∧
  result (__spi_serial_tty_write 0%nat (Some [65]) 1 true)
    (probed [false]) ≠ Some (Z.of_nat (length [65])).
Proof. split; vm_compute; (reflexivity || discriminate). Qed.

(** C2, where the code departs from it: when the message descriptor or
    the transfer record is refused after the inbound buffer was
    obtained, the call does return [-ENOMEM] and exchanges nothing, but
    the inbound buffer is never given back: it is still allocated when
    the call returns. *)
Theorem refused_allocation_leaks stty s buf count discard_rx st k :
  heap st !! stty = Some (obj_spi_tty s) →
  stty ∉ locked st →
  0 < count ≤ INT_MAX →
  (1 ≤ k < 3)%nat →
  refused_at k (alloc_plan st) →
  ∃ evs st' p,
    runs (__spi_serial_tty_write stty (Some buf) count discard_rx) st
      (- ENOMEM) evs st' ∧
    transfers_of evs = [] ∧
    EvKmalloc (size_bytes (xfer_len count discard_rx)) (Some p) ∈ evs ∧
    (EvKfree p ∉ evs) ∧
    heap st !! p = None ∧
    heap st' !! p = Some (obj_raw (size_bytes (xfer_len count discard_rx))).
Proof.
  intros Hobj Hfree Hcount Hk Hplan.
  eexists _, _, (fresh (dom (heap st))). split.
  { split; [apply (write_refused k _ s); (done || lia)|]. done. }
  split; [|split; [|split; [|split; [apply fresh_unused|]]]].
  - by destruct k as [|[|[|k]]]; [lia|..|lia].
  - destruct k as [|[|[|k]]]; [lia|..|lia];
      unfold refused_events, alloc_events, slab_addr;
      cbn [seq map request heap_after app];
      rewrite !elem_of_cons; tauto.
  - destruct k as [|[|[|k]]]; [lia|..|lia];
      unfold refused_events, alloc_events, slab_addr;
      cbn [seq map request heap_after app];
      rewrite !not_elem_of_cons; repeat split; try done;
      apply not_elem_of_nil.
  - destruct k as [|[|[|k]]]; [lia|..|lia]; ksimpl; cbn [heap_after].
    + apply lookup_insert_eq.
    + apply lookup_insert_fresh, lookup_insert_eq.
Qed.

Lemma refused_allocation_leaks_witness :
  let st := probed [true; false] in
  (heap st !! 0%nat =
     Some (obj_spi_tty (mk_stty (Some 3%nat) 0 (Some 7%nat)
                          (replicate 64 0x05 ++ [0x00]))) ∧
   (0%nat ∉ locked st) ∧
   0 < 1 ≤ INT_MAX ∧
   (1 ≤ 1 < 3)%nat ∧
   refused_at 1 (alloc_plan st)) ∧
  ∃ evs st' p,
    runs (__spi_serial_tty_write 0%nat (Some [65]) 1 true) st
      (- ENOMEM) evs st' ∧
    transfers_of evs = [] ∧
    EvKmalloc (size_bytes (xfer_len 1 true)) (Some p) ∈ evs ∧
    (EvKfree p ∉ evs) ∧
    heap st !! p = None ∧
    heap st' !! p = Some (obj_raw (size_bytes (xfer_len 1 true))).
Proof.
  intros st.
  assert (H1 : heap st !! 0%nat =
     Some (obj_spi_tty (mk_stty (Some 3%nat) 0 (Some 7%nat)
                          (replicate 64 0x05 ++ [0x00]))))
    by by_evaluation.
  assert (H2 : 0%nat ∉ locked st) by by_evaluation.
  assert (H3 : 0 < 1 ≤ INT_MAX) by done.
  assert (H4 : (1 ≤ 1 < 3)%nat) by lia.
  assert (H5 : refused_at 1 (alloc_plan st)) by by_evaluation.
  split; [done|].
  exact (refused_allocation_leaks 0%nat _ [65] 1 true st 1 H1 H2 H3 H4 H5).
Defined.

(** ** The mutex *)

Lemma served_events_bracketed st stty buf count discard_rx :
  bracketed stty (served_events st stty buf count discard_rx).
Proof.
  unfold served_events.
  exists (alloc_events 3 (xfer_len count discard_rx) (heap st) ++
          exchange_events st (xfer_of st buf count discard_rx) discard_rx ++
          free_events (xfer_len count discard_rx) (heap st)).
  split; [by rewrite <- !app_assoc|].
  repeat apply Forall_app_2.
  - by repeat constructor.
  - by apply exchange_events_Forall.
  - by repeat constructor.
Qed.

Lemma refused_events_bracketed k st stty count discard_rx :
  bracketed stty (refused_events k st stty count discard_rx).
Proof.
  unfold refused_events.
  exists (alloc_events k (xfer_len count discard_rx) (heap st) ++
          [EvKmalloc (request k (xfer_len count discard_rx)) None]).
  split; [by rewrite <- !app_assoc|].
  apply Forall_app_2; [|by repeat constructor].
  apply Forall_fmap, Forall_true. by intros j.
Qed.

Lemma runs_nothing {A} (c : M A) st r r' evs st' :
  c st = Some (r, st) → runs c st r' evs st' → evs = [].
Proof.
  intros Hc [Hrun Htr]. rewrite Hc in Hrun. simplify_eq.
  apply (app_inv_head (trace st')). by rewrite app_nil_r.
Qed.

(** The calls of any invocation: none at all, or one critical section. *)
Lemma call_events_outside stty evs :
  call_events stty evs → outside stty evs.
Proof.
  intros (buf & count & discard_rx & st & r & st' & Hcount & Hrun).
  destruct buf as [buf|]; [destruct (decide (count = 0)) as [->|Hnz]|].
  - left. eapply runs_nothing; [|done]. by apply write_nothing; right.
  - right. assert (Hpos : 0 < count ≤ INT_MAX) by lia.
    destruct (write_events _ _ _ _ _ _ _ _ Hpos Hrun)
      as [(_ & _ & ->)|(k & _ & _ & _ & ->)].
    + apply served_events_bracketed.
    + apply refused_events_bracketed.
  - left. eapply runs_nothing; [|done]. by apply write_nothing; left.
Qed.

Lemma count_events_app f evs1 evs2 :
  count_events f (evs1 ++ evs2) =
    (count_events f evs1 + count_events f evs2)%nat.
Proof. unfold count_events. by rewrite filter_app, length_app. Qed.

Lemma count_events_quiet_lock m evs :
  quiet m evs → count_events (is_lock m) evs = 0%nat.
Proof.
  unfold count_events, quiet, is_mutex_event.
  induction 1 as [|e evs He _ IH]; [done|].
  rewrite filter_cons_False; [done|].
  intros Hl. rewrite Hl in He. done.
Qed.

Lemma count_events_quiet_unlock m evs :
  quiet m evs → count_events (is_unlock m) evs = 0%nat.
Proof.
  unfold count_events, quiet, is_mutex_event.
  induction 1 as [|e evs He _ IH]; [done|].
  rewrite filter_cons_False; [done|].
  intros Hl. rewrite Hl, orb_true_r in He. done.
Qed.

Lemma bracketed_once m evs :
  bracketed m evs →
  count_events (is_lock m) evs = 1%nat ∧
  count_events (is_unlock m) evs = 1%nat.
Proof.
  intros (mid & -> & Hq).
  change (EvMutexLock m :: ?l) with ([EvMutexLock m] ++ l).
  rewrite !count_events_app, (count_events_quiet_lock m mid),
    (count_events_quiet_unlock m mid) by done.
  unfold count_events. rewrite !filter_cons, !filter_nil.
  cbn [is_lock is_unlock].
  rewrite !(decide_True (P := bool_decide (m = m) = true))
    by (by apply bool_decide_eq_true).
  by rewrite !(decide_False (P := false = true)) by done.
Qed.

Lemma lock_is_mutex_event m : is_mutex_event m (EvMutexLock m) = true.
Proof. unfold is_mutex_event. simpl. by rewrite bool_decide_true. Qed.

Lemma unlock_is_mutex_event m : is_mutex_event m (EvMutexUnlock m) = true.
Proof. unfold is_mutex_event. simpl. by rewrite bool_decide_true. Qed.

Lemma mutex_inv_init m progs :
  Forall (outside m) progs → mutex_inv m (mk_conf None progs).
Proof.
  intros Hall i rest Hi. right. split; [done|].
  by eapply Forall_lookup_1.
Qed.

Lemma mutex_inv_step m c c' :
  mutex_inv m c → cstep m c c' → mutex_inv m c'.
Proof.
  intros Hinv Hstep.
  destruct Hstep as [c i rest Hi Hown|c i rest Hi|c i e rest Hi He];
    intros j rest' Hj; simpl in *;
    apply list_lookup_insert_Some in Hj as [(<- & <- & Hlen)|[Hne Hj]].
  - (* the thread that takes the mutex goes inside *)
    left. split; [done|].
    destruct (Hinv _ _ Hi) as [[Ho _]|[_ [?|(mid & Heq & Hq)]]];
      [congruence|done|].
    simplify_eq. by exists mid.
  - (* nobody held it, so the others stay outside *)
    right. split; [congruence|].
    destruct (Hinv _ _ Hj) as [[Ho _]|[_ Hout]]; [congruence|done].
  - (* the thread that gives the mutex back is done *)
    right. split; [done|]. left.
    destruct (Hinv _ _ Hi) as [[_ (mid & Heq & Hq)]|[_ [?|(mid & Heq & _)]]];
      [|done..].
    destruct mid as [|e mid]; simplify_eq/=; [done|].
    apply Forall_cons in Hq as [Hq _].
    by rewrite unlock_is_mutex_event in Hq.
  - (* the others were outside already *)
    right. split; [done|].
    destruct (Hinv _ _ Hj) as [[Ho (mid & -> & Hq)]|[_ Hout]]; [|done].
    destruct (Hinv _ _ Hi) as [[Ho' _]|[_ [?|(mid' & Heq & _)]]];
      [congruence|done..].
  - (* any other call keeps the thread where it is *)
    destruct (Hinv _ _ Hi) as [[Ho (mid & Heq & Hq)]|[Ho [?|(mid & Heq & _)]]].
    + left. split; [done|].
      destruct mid as [|e' mid]; simplify_eq/=.
      { by rewrite unlock_is_mutex_event in He. }
      apply Forall_cons in Hq as [_ Hq]. by exists mid.
    + done.
    + simplify_eq/=. by rewrite lock_is_mutex_event in He.
  - destruct (Hinv _ _ Hj) as [?|?]; [by left|by right].
Qed.

Lemma mutex_inv_reachable m progs c :
  Forall (outside m) progs → reachable m progs c → mutex_inv m c.
Proof.
  intros Hall Hreach. unfold reachable in Hreach. revert c Hreach.
  apply rtc_ind_r.
  - by apply mutex_inv_init.
  - intros c c' _ Hstep Hinv. by eapply mutex_inv_step.
Qed.

(** A thread whose exchange is under way holds the mutex. *)
Lemma in_flight_owner m c i :
  mutex_inv m c → in_flight c i → owner c = Some i.
Proof.
  intros Hinv (status & rest & Hi).
  destruct (Hinv _ _ Hi) as [[Ho _]|[_ [?|(mid & Heq & _)]]]; done.
Qed.

(** A thread can run a stretch that leaves the mutex alone whatever the
    others are doing, and can enter its critical section when the mutex
    is free. *)
Lemma solo_run m mid rest progs o :
  quiet m mid →
  rtc (cstep m) (mk_conf o ((mid ++ rest) :: progs))
    (mk_conf o (rest :: progs)).
Proof.
  induction 1 as [|e mid He _ IH]; [done|].
  eapply rtc_l; [|exact IH].
  by apply (cstep_other m (mk_conf o (((e :: mid) ++ rest) :: progs)) 0 e
              (mid ++ rest)).
Qed.

Lemma solo_enter m mid rest progs :
  quiet m mid →
  reachable m ((EvMutexLock m :: mid ++ rest) :: progs)
    (mk_conf (Some 0%nat) (rest :: progs)).
Proof.
  intros Hq. unfold reachable.
  eapply rtc_l; [|by apply solo_run].
  by apply (cstep_lock m
              (mk_conf None ((EvMutexLock m :: mid ++ rest) :: progs)) 0
              (mid ++ rest)).
Qed.

Lemma write_keeps_locked stty buf count discard_rx st r st' :
  0 < count ≤ INT_MAX →
  __spi_serial_tty_write stty (Some buf) count discard_rx st = Some (r, st') →
  locked st' = locked st.
Proof.
  intros Hcount Hrun.
  by destruct (write_cases _ _ _ _ _ _ _ Hcount Hrun)
    as [(_ & _ & ->)|(k & _ & _ & _ & ->)].
Qed.

(** C8: a call of [__spi_serial_tty_write] that takes the instance's
    mutex makes its calls in one critical section: it locks first,
    unlocks last, exactly once each on every path, everything else
    (the exchange included) happens in between, and the mutex is as it
    was when the call returns.  Hence, when this call runs concurrently
    with any other calls on the same instance, a thread whose exchange is
    under way holds the mutex, and no two threads are inside an exchange
    at the same time. *)
Theorem mutex_discipline
    stty buf count discard_rx st r evs st' progs c :
  0 < count ≤ INT_MAX →
  runs (__spi_serial_tty_write stty (Some buf) count discard_rx) st r evs st' →
  Forall (call_events stty) progs →
  reachable stty (evs :: progs) c →
  bracketed stty evs ∧
  count_events (is_lock stty) evs = 1%nat ∧
  count_events (is_unlock stty) evs = 1%nat ∧
  locked st' = locked st ∧
  (∀ i, in_flight c i → owner c = Some i ∧ ∀ j, in_flight c j → j = i).
Proof.
  intros Hcount Hrun Hprogs Hreach.
  assert (Hcall : call_events stty evs).
  { exists (Some buf), count, discard_rx, st, r, st'. split; [lia|done]. }
  assert (Hb : bracketed stty evs).
  { destruct (write_events _ _ _ _ _ _ _ _ Hcount Hrun)
      as [(_ & _ & ->)|(k & _ & _ & _ & ->)].
    - apply served_events_bracketed.
    - apply refused_events_bracketed. }
  destruct (bracketed_once _ _ Hb) as [Hl Hu].
  assert (Hinv : mutex_inv stty c).
  { apply (mutex_inv_reachable stty (evs :: progs)); [|done].
    apply Forall_cons. split; [by right|].
    eapply Forall_impl; [exact Hprogs|]. apply call_events_outside. }
  repeat split; try done.
  - destruct Hrun as [Hrun _]. by eapply write_keeps_locked.
  - by eapply in_flight_owner.
  - intros j Hj.
    pose proof (in_flight_owner _ _ _ Hinv H) as Hi.
    pose proof (in_flight_owner _ _ _ Hinv Hj) as Hj'.
    congruence.
Qed.

Lemma mutex_discipline_witness :
  let w := __spi_serial_tty_write 0%nat (Some [72; 105]) 2 true in
  let p := __spi_serial_tty_write 0%nat (Some (replicate 64 0x05 ++ [0x00]))
             65 false in
  let st := probed [] in
  let c := mk_conf (Some 0%nat) [drop 5 (calls w st); calls p st] in
  (0 < 2 ≤ INT_MAX ∧
   runs w st 2 (calls w st) (after w st) ∧
   Forall (call_events 0) [calls p st] ∧
   reachable 0 [calls w st; calls p st] c ∧
   in_flight c 0) ∧
  bracketed 0 (calls w st) ∧
  count_events (is_lock 0) (calls w st) = 1%nat ∧
  count_events (is_unlock 0) (calls w st) = 1%nat ∧
  locked (after w st) = locked st ∧
  (∀ i, in_flight c i → owner c = Some i ∧ ∀ j, in_flight c j → j = i).
Proof.
  intros w p st c.
  assert (H1 : 0 < 2 ≤ INT_MAX) by done.
  assert (H2 : runs w st 2 (calls w st) (after w st)) by by_evaluation.
  assert (H3 : Forall (call_events 0) [calls p st]).
  { repeat constructor.
    exists (Some (replicate 64 0x05 ++ [0x00])), 65, false, st, 65,
      (after p st).
    split; [done|by_evaluation]. }
  assert (H4 : reachable 0 [calls w st; calls p st] c).
  { replace (calls w st)
      with (EvMutexLock 0 :: take 4 (drop 1 (calls w st)) ++
            drop 5 (calls w st)) at 1 by by_evaluation.
    apply solo_enter. vm_compute. repeat constructor. }
  assert (H5 : in_flight c 0%nat).
  { exists 0, (drop 6 (calls w st)). by_evaluation. }
  split; [done|].
  exact (mutex_discipline 0%nat [72; 105] 2 true st 2 _ _ _ c H1 H2 H3 H4).
Defined.

(** * The entry points beyond the claims *)

(** ** [spi_tty_probe], path by path *)

Lemma insert_thrice {A} (h : gmap nat A) p a b c :
  <[p := a]> (<[p := b]> (<[p := c]> h)) = <[p := a]> h.
Proof. by rewrite !insert_insert_eq. Qed.

Lemma probe_served sdev st dev :
  dev_count st < SPI_SERIAL_TTY_MINORS →
  head (alloc_plan st) ≠ Some false →
  request_irq_ret st (probe_irq sdev st) = 0 →
  register_device_ret st (dev_count st) = inl dev →
  spi_tty_probe sdev st =
    Some (0,
      let p := fresh (dom (heap st)) in
      set_dev_count (to_uint (dev_count st + 1))
        (set_trace
           (trace st ++
              [EvDevInfo; EvKmalloc sizeof_spi_tty (Some p);
               EvRequestIrq (probe_irq sdev st) p;
               EvRegisterDevice (dev_count st)])
           (set_drvdata (<[dev := p]> (<[spi_dev sdev := p]> (drvdata st)))
              (set_locked (locked st ∖ {[p]})
                 (set_heap
                    (<[p := obj_spi_tty
                             (probed_instance sdev (dev_count st) dev)]>
                       (heap st))
                    (set_alloc_plan (tail (alloc_plan st)) st)))))).
Proof.
  unfold spi_tty_probe, probe_irq.
  destruct st as [dc tys dt h lk dd plan bus g2i rq reg tm tr]. ksimpl.
  intros Hdc Hplan Hrq Hreg. kunfold. ksimpl.
  destruct (Z.leb_spec SPI_SERIAL_TTY_MINORS dc) as [?|_]; [lia|].
  destruct plan as [|[] plan]; try done; ksimpl; cbn [new_obj];
    repeat (rewrite lookup_insert_eq; ksimpl);
    rewrite Hrq, Z.eqb_refl; ksimpl;
    repeat (rewrite lookup_insert_eq; ksimpl);
    rewrite Hreg; ksimpl; repeat (rewrite lookup_insert_eq; ksimpl);
    rewrite !insert_insert_eq, <- !app_assoc; reflexivity.
Qed.

(** Every probe that returns either built one instance, or left the
    slab, the count and the tty slot as they were. *)
Lemma probe_cases sdev st r st' :
  spi_tty_probe sdev st = Some (r, st') →
  (heap st' = heap st ∧ dev_count st' = dev_count st ∧
   ttys st' = ttys st ∧
   (r = 0 → register_device_ret st (dev_count st) = inr 0)) ∨
  (∃ dev,
     dev_count st < SPI_SERIAL_TTY_MINORS ∧
     head (alloc_plan st) ≠ Some false ∧
     request_irq_ret st (probe_irq sdev st) = 0 ∧
     register_device_ret st (dev_count st) = inl dev ∧
     r = 0).
Proof.
  destruct (Z.leb_spec SPI_SERIAL_TTY_MINORS (dev_count st)) as [Hcap|Hcap].
  { unfold spi_tty_probe, bind at 1, gets at 1.
    destruct (Z.leb_spec SPI_SERIAL_TTY_MINORS (dev_count st)); [|lia].
    unfold ret. intros ?. simplify_eq. left. by repeat split. }
  destruct (decide (head (alloc_plan st) = Some false)) as [Hplan|Hplan].
  { unfold spi_tty_probe, bind at 1, gets at 1.
    destruct (Z.leb_spec SPI_SERIAL_TTY_MINORS (dev_count st)); [lia|].
    unfold log, modify. do 2 kstep. unfold kzalloc.
    rewrite kmalloc_refused by done. ksimpl.
    unfold ret. intros ?. simplify_eq. left. by repeat split. }
  destruct (decide (request_irq_ret st (probe_irq sdev st) = 0)) as [Hrq|Hrq];
    [destruct (register_device_ret st (dev_count st)) as [dev|e] eqn:Hreg|].
  - intros Hrun. rewrite (probe_served _ _ dev) in Hrun by done.
    simplify_eq. right. eauto 10.
  - revert Hreg Hrq. unfold spi_tty_probe, probe_irq.
    destruct st as [dc tys dt h lk dd plan bus g2i rq reg tm tr]. ksimpl.
    intros Hreg Hrq. kunfold. ksimpl.
    destruct (Z.leb_spec SPI_SERIAL_TTY_MINORS dc) as [?|_]; [lia|].
    destruct plan as [|[] plan]; try done; ksimpl; cbn [new_obj];
      repeat (rewrite lookup_insert_eq; ksimpl);
      rewrite Hrq, Z.eqb_refl; ksimpl;
      repeat (rewrite lookup_insert_eq; ksimpl);
      rewrite Hreg; ksimpl;
      rewrite !insert_insert_eq, delete_insert_id by apply fresh_unused;
      intros ?; simplify_eq; left; ksimpl; by repeat split; try congruence.
  - revert Hrq. unfold spi_tty_probe, probe_irq.
    destruct st as [dc tys dt h lk dd plan bus g2i rq reg tm tr]. ksimpl.
    intros Hrq. kunfold. ksimpl.
    destruct (Z.leb_spec SPI_SERIAL_TTY_MINORS dc) as [?|_]; [lia|].
    destruct plan as [|[] plan]; try done; ksimpl; cbn [new_obj];
      repeat (rewrite lookup_insert_eq; ksimpl);
      (destruct (Z.eqb_spec (rq (g2i (to_int (to_uint (platform_data sdev)))))
         0) as [?|_]; [done|]);
      ksimpl;
      rewrite !insert_insert_eq, delete_insert_id by apply fresh_unused;
      intros ?; simplify_eq; left; ksimpl; by repeat split.
Qed.

(** ** [spi_tty_remove] *)

Lemma remove_instance sdev st p s :
  drvdata st !! spi_dev sdev = Some p →
  heap st !! p = Some (obj_spi_tty s) →
  spi_tty_remove sdev st =
    Some (0,
      set_trace
        (trace st ++
           [EvDevInfo; EvUnregisterDevice (tty_minor s); EvKfree p])
        (set_heap (delete p (heap st))
           (set_dev_count
              (if tty_minor s =? to_uint (dev_count st - 1)
               then to_uint (dev_count st - 1) else dev_count st)
              st))).
Proof.
  intros Hdd Hobj. unfold spi_tty_remove.
  destruct st as [dc tys dt h lk dd plan bus g2i rq reg tm tr]. ksimpl.
  kunfold. ksimpl. rewrite Hdd. ksimpl. rewrite Hobj. ksimpl.
  destruct (tty_minor s =? to_uint (dc - 1)); ksimpl;
    by rewrite <- !app_assoc.
Qed.

(** A removal that returns found its instance. *)
Lemma remove_entered sdev st r st' :
  spi_tty_remove sdev st = Some (r, st') →
  ∃ p s, drvdata st !! spi_dev sdev = Some p ∧
         heap st !! p = Some (obj_spi_tty s).
Proof.
  unfold spi_tty_remove. kunfold.
  destruct (drvdata _ !! spi_dev sdev) as [p|] eqn:Hdd; [|done].
  ksimpl. destruct (heap st !! p) as [[|s]|] eqn:Hobj; try done. eauto.
Qed.

(** Projections of updated states, without expanding the updates. *)
Ltac kproj :=
  cbn [dev_count ttys driver_ttys heap locked drvdata alloc_plan spi_bus
       gpio_to_irq request_irq_ret register_device_ret init_termios_ret
       trace set_dev_count set_heap set_locked set_drvdata set_alloc_plan
       set_trace set_ttys] in *.

Ltac not_in_by_evaluation :=
  let Hin := fresh in
  intros Hin; apply (bool_decide_pack _) in Hin; vm_compute in Hin;
  exact Hin.



(** X2: whenever a probe returns an error, it has given back what it
    took: the slab, the instance count and the tty slot are exactly as
    before the call. *)
Theorem probe_failure_unwinds sdev st r st' :
  spi_tty_probe sdev st = Some (r, st') →
  r ≠ 0 →
  heap st' = heap st ∧ dev_count st' = dev_count st ∧ ttys st' = ttys st.
Proof.
  intros Hrun Hr.
  destruct (probe_cases _ _ _ _ Hrun) as [(? & ? & ? & _)|(dev & Hok)];
    [done|]. by destruct Hok as (_ & _ & _ & _ & ?).
Qed.

Lemma probe_failure_unwinds_witness :
  let st := module_state [] demo_bus id (λ _, -16) (λ _, inl 7%nat)
              (λ _, 0) in
  let st' := after (spi_tty_probe demo_spi) st in
  (spi_tty_probe demo_spi st = Some (-16, st') ∧ -16 ≠ 0) ∧
  heap st' = heap st ∧ dev_count st' = dev_count st ∧ ttys st' = ttys st.
Proof.
  intros st st'.
  assert (H1 : spi_tty_probe demo_spi st = Some (-16, st')) by by_evaluation.
  assert (H2 : -16 ≠ 0) by done.
  split; [done|].
  exact (probe_failure_unwinds demo_spi st (-16) st' H1 H2).
Defined.





Lemma probe_full sdev st :
  SPI_SERIAL_TTY_MINORS ≤ dev_count st →
  spi_tty_probe sdev st = Some (- ENOMEM, st).
Proof.
  intros Hdc. unfold spi_tty_probe, bind at 1, gets at 1.
  by destruct (Z.leb_spec SPI_SERIAL_TTY_MINORS (dev_count st)); [|lia].
Qed.

(** X5: removing the instance a probe has just built returns 0,
    unregisters the minor 0, frees the instance and brings the instance
    count back: slab and count are as before the probe. *)
Theorem probe_then_remove sdev st dev :
  0 ≤ dev_count st < SPI_SERIAL_TTY_MINORS →
  head (alloc_plan st) ≠ Some false →
  request_irq_ret st (probe_irq sdev st) = 0 →
  register_device_ret st (dev_count st) = inl dev →
  ∃ st1 st2,
    spi_tty_probe sdev st = Some (0, st1) ∧
    spi_tty_remove sdev st1 = Some (0, st2) ∧
    dev_count st1 = 1 ∧
    dev_count st2 = dev_count st ∧
    heap st2 = heap st ∧
    EvUnregisterDevice 0 ∈ trace st2.
Proof.
  intros Hdc Hplan Hrq Hreg.
  assert (Hzero : dev_count st = 0) by (unfold SPI_SERIAL_TTY_MINORS in *; lia).
  eexists _, _.
  split; [apply (probe_served _ _ dev); (done || lia)|].
  cbn zeta. rewrite Hzero.
  split.
  { eapply (remove_instance sdev _ (fresh (dom (heap st)))); kproj.
    - rewrite lookup_insert. case_decide; [done|]. apply lookup_insert_eq.
    - apply lookup_insert_eq. }
  kproj. cbn [tty_minor probed_instance].
  split; [done|]. split; [done|].
  split; [apply delete_insert_id, fresh_unused|].
  rewrite !elem_of_app, !elem_of_cons. tauto.
Qed.

Lemma probe_then_remove_witness :
  let st := demo_state demo_bus in
  (0 ≤ dev_count st < SPI_SERIAL_TTY_MINORS ∧
   head (alloc_plan st) ≠ Some false ∧
   request_irq_ret st (probe_irq demo_spi st) = 0 ∧
   register_device_ret st (dev_count st) = inl 7%nat) ∧
  ∃ st1 st2,
    spi_tty_probe demo_spi st = Some (0, st1) ∧
    spi_tty_remove demo_spi st1 = Some (0, st2) ∧
    dev_count st1 = 1 ∧
    dev_count st2 = dev_count st ∧
    heap st2 = heap st ∧
    EvUnregisterDevice 0 ∈ trace st2.
Proof.
  intros st.
  assert (H1 : 0 ≤ dev_count st < SPI_SERIAL_TTY_MINORS) by done.
  assert (H2 : head (alloc_plan st) ≠ Some false) by done.
  assert (H3 : request_irq_ret st (probe_irq demo_spi st) = 0) by done.
  assert (H4 : register_device_ret st (dev_count st) = inl 7%nat) by done.
  split; [done|].
  exact (probe_then_remove demo_spi st 7 H1 H2 H3 H4).
Defined.

(** X6: once a probe has succeeded, every further probe, of any device,
    fails with [-ENOMEM] and changes nothing. *)
Theorem probe_twice sdev sdev2 st dev :
  0 ≤ dev_count st < SPI_SERIAL_TTY_MINORS →
  head (alloc_plan st) ≠ Some false →
  request_irq_ret st (probe_irq sdev st) = 0 →
  register_device_ret st (dev_count st) = inl dev →
  ∃ st1,
    spi_tty_probe sdev st = Some (0, st1) ∧
    spi_tty_probe sdev2 st1 = Some (- ENOMEM, st1).
Proof.
  intros Hdc Hplan Hrq Hreg.
  assert (Hzero : dev_count st = 0) by (unfold SPI_SERIAL_TTY_MINORS in *; lia).
  eexists.
  split; [apply (probe_served _ _ dev); (done || lia)|].
  apply probe_full. cbn zeta. rewrite Hzero. kproj. done.
Qed.

Lemma probe_twice_witness :
  let st := demo_state demo_bus in
  (0 ≤ dev_count st < SPI_SERIAL_TTY_MINORS ∧
   head (alloc_plan st) ≠ Some false ∧
   request_irq_ret st (probe_irq demo_spi st) = 0 ∧
   register_device_ret st (dev_count st) = inl 7%nat) ∧
  ∃ st1,
    spi_tty_probe demo_spi st = Some (0, st1) ∧
    spi_tty_probe (mk_spi 4 18) st1 = Some (- ENOMEM, st1).
Proof.
  intros st.
  assert (H1 : 0 ≤ dev_count st < SPI_SERIAL_TTY_MINORS) by done.
  assert (H2 : head (alloc_plan st) ≠ Some false) by done.
  assert (H3 : request_irq_ret st (probe_irq demo_spi st) = 0) by done.
  assert (H4 : register_device_ret st (dev_count st) = inl 7%nat) by done.
  split; [done|].
  exact (probe_twice demo_spi (mk_spi 4 18) st 7 H1 H2 H3 H4).
Defined.

(** ** What the write path leaves alone *)

Lemma insert_raw_instances (h : gmap nat kobj) q sz p s :
  h !! q = None →
  <[q := obj_raw sz]> h !! p = Some (obj_spi_tty s) ↔
  h !! p = Some (obj_spi_tty s).
Proof.
  intros Hq. rewrite lookup_insert_Some. split.
  - by intros [[_ [=]]|[_ H]].
  - intros H. right. split; [|done]. intros ->. congruence.
Qed.

Lemma heap_after_instances k n (h : gmap nat kobj) p s :
  heap_after k n h !! p = Some (obj_spi_tty s) ↔
  h !! p = Some (obj_spi_tty s).
Proof.
  destruct k as [|[|k]]; cbn [heap_after]; [done|..].
  - apply insert_raw_instances, fresh_unused.
  - cbn zeta. rewrite insert_raw_instances by apply fresh_unused.
    apply insert_raw_instances, fresh_unused.
Qed.

Lemma write_frame stty buf count discard_rx st r st' :
  0 ≤ count ≤ INT_MAX →
  __spi_serial_tty_write stty buf count discard_rx st = Some (r, st') →
  dev_count st' = dev_count st ∧
  ttys st' = ttys st ∧
  drvdata st' = drvdata st ∧
  locked st' = locked st ∧
  ∀ p s, heap st' !! p = Some (obj_spi_tty s) ↔
         heap st !! p = Some (obj_spi_tty s).
Proof.
  intros Hcount Hrun.
  destruct buf as [buf|]; [destruct (decide (count = 0)) as [->|Hnz]|].
  - rewrite write_nothing in Hrun by (by right). by simplify_eq.
  - assert (Hpos : 0 < count ≤ INT_MAX) by lia.
    destruct (write_cases _ _ _ _ _ _ _ Hpos Hrun)
      as [(_ & _ & ->)|(k & _ & _ & _ & ->)]; kproj;
      repeat split; try done; try apply heap_after_instances;
      by intros ?%heap_after_instances.
  - rewrite write_nothing in Hrun by (by left). by simplify_eq.
Qed.

(** X7: a call of [__spi_serial_tty_write] that returns, on whatever
    path, leaves the instance count, the tty slot, the driver data of
    the devices, the mutexes and every instance record as they were. *)
Theorem write_leaves_driver_state
    stty buf count discard_rx st r evs st' :
  0 ≤ count ≤ INT_MAX →
  runs (__spi_serial_tty_write stty buf count discard_rx) st r evs st' →
  dev_count st' = dev_count st ∧
  ttys st' = ttys st ∧
  drvdata st' = drvdata st ∧
  locked st' = locked st ∧
  ∀ p s, heap st' !! p = Some (obj_spi_tty s) ↔
         heap st !! p = Some (obj_spi_tty s).
Proof. intros Hcount [Hrun _]. by eapply write_frame. Qed.

Lemma write_leaves_driver_state_witness :
  let w := __spi_serial_tty_write 0%nat (Some [65; 66; 67]) 3 true in
  let st := probed [true; true; false] in
  (0 ≤ 3 ≤ INT_MAX ∧
   runs w st (- ENOMEM) (calls w st) (after w st)) ∧
  dev_count (after w st) = dev_count st ∧
  ttys (after w st) = ttys st ∧
  drvdata (after w st) = drvdata st ∧
  locked (after w st) = locked st ∧
  ∀ p s, heap (after w st) !! p = Some (obj_spi_tty s) ↔
         heap st !! p = Some (obj_spi_tty s).
Proof.
  intros w st.
  assert (H1 : 0 ≤ 3 ≤ INT_MAX) by done.
  assert (H2 : runs w st (- ENOMEM) (calls w st) (after w st))
    by by_evaluation.
  split; [done|].
  exact (write_leaves_driver_state 0%nat (Some [65; 66; 67]) 3 true st
           (- ENOMEM) _ _ H1 H2).
Defined.

(** ** The capacity invariant *)

Lemma bind_ret_tt {A} (c : M A) st st' :
  (c ;; ret tt) st = Some (tt, st') → ∃ r, c st = Some (r, st').
Proof.
  unfold bind, ret. destruct (c st) as [[r st1]|]; [|done].
  intros ?. simplify_eq. eauto.
Qed.

Lemma install_frame tty st r st' :
  spi_serial_tty_install tty st = Some (r, st') →
  heap st' = heap st ∧ dev_count st' = dev_count st.
Proof.
  unfold spi_serial_tty_install. kunfold.
  destruct (ttys_at st 0); [intros ?; by simplify_eq|].
  destruct (_ =? 0); intros ?; by simplify_eq.
Qed.

Lemma within_capacity_frame st st' :
  dev_count st' = dev_count st →
  (∀ p s, heap st' !! p = Some (obj_spi_tty s) →
          heap st !! p = Some (obj_spi_tty s)) →
  within_capacity st → within_capacity st'.
Proof.
  intros Hdc Hheap [Hcap Hminor]. split; [by rewrite Hdc|].
  intros p s Hp. eapply Hminor, Hheap, Hp.
Qed.

Lemma probe_keeps_capacity sdev st r st' :
  spi_tty_probe sdev st = Some (r, st') →
  within_capacity st → within_capacity st'.
Proof.
  intros Hrun Hwf.
  destruct (probe_cases _ _ _ _ Hrun)
    as [(Hh & Hdc & _)|(dev & Hdc & Hplan & Hrq & Hreg & _)].
  - apply (within_capacity_frame st); [done| |done].
    intros p s. by rewrite Hh.
  - rewrite (probe_served _ _ dev) in Hrun by done.
    destruct Hwf as [Hcap Hminor].
    assert (Hzero : dev_count st = 0)
      by (unfold SPI_SERIAL_TTY_MINORS in *; lia).
    simplify_eq. cbn zeta. rewrite Hzero. split; kproj; [done|].
    intros p s [[_ [= <-]]|[_ Hp]]%lookup_insert_Some; [done|].
    by eapply Hminor.
Qed.

Lemma remove_keeps_capacity sdev st r st' :
  spi_tty_remove sdev st = Some (r, st') →
  within_capacity st → within_capacity st'.
Proof.
  intros Hrun [Hcap Hminor].
  destruct (remove_entered _ _ _ _ Hrun) as (p & s & Hdd & Hobj).
  rewrite (remove_instance _ _ p s) in Hrun by done. simplify_eq.
  split; kproj.
  - rewrite (Hminor _ _ Hobj).
    assert (dev_count st = 0 ∨ dev_count st = 1) as [->| ->]
      by (unfold SPI_SERIAL_TTY_MINORS in *; lia); done.
  - intros q s' [_ Hq]%lookup_delete_Some. by eapply Hminor.
Qed.

(** X8: whatever the kernel calls (probes, removals, writes, polls,
    installs, tty removals, lookups, in any order and with the slab
    answering as it likes), the instance count stays between 0 and the
    capacity 1, and every instance has the minor 0. *)
Theorem capacity_is_kept st st' :
  within_capacity st →
  rtc driver_step st st' →
  within_capacity st'.
Proof.
  intros Hwf Hsteps. induction Hsteps as [st|st st1 st2 Hstep _ IH]; [done|].
  apply IH. clear IH st2.
  destruct Hstep as (o & plan & Hvalid & Hrun).
  assert (Hwf' : within_capacity (set_alloc_plan plan st)) by done.
  revert Hrun. generalize (set_alloc_plan plan st) Hwf'. clear Hwf Hwf' st.
  intros st Hwf Hrun.
  destruct o as [sdev|sdev|tty buf count|irq data|tty|tty|idx];
    cbn [enter valid_op] in *.
  - apply bind_ret_tt in Hrun as [r Hrun]. by eapply probe_keeps_capacity.
  - apply bind_ret_tt in Hrun as [r Hrun]. by eapply remove_keeps_capacity.
  - apply bind_ret_tt in Hrun as [r Hrun].
    unfold spi_serial_tty_write, tty_to_spitty in Hrun. kunfold.
    destruct (drvdata st !! tty_device tty) as [stty|]; [|done].
    destruct (write_frame _ _ _ _ _ _ _ Hvalid Hrun) as (Hdc & _ & _ & _ & Hh).
    apply (within_capacity_frame st); [done| |done].
    intros p s. apply Hh.
  - apply bind_ret_tt in Hrun as [r Hrun].
    destruct (irq_handler_poll _ _ _ _ _ Hrun) as (s & r0 & _ & Hw).
    assert (Hcount : 0 ≤ sizeof_enq_buf ≤ INT_MAX) by done.
    destruct (write_frame _ _ _ _ _ _ _ Hcount Hw) as (Hdc & _ & _ & _ & Hh).
    apply (within_capacity_frame st); [done| |done].
    intros p s'. apply Hh.
  - apply bind_ret_tt in Hrun as [r Hrun].
    destruct (install_frame _ _ _ _ Hrun) as [Hh Hdc].
    apply (within_capacity_frame st); [done| |done].
    intros p s. by rewrite Hh.
  - unfold spi_serial_tty_remove, modify in Hrun. by simplify_eq.
  - apply bind_ret_tt in Hrun as [r Hrun].
    unfold spi_serial_tty_lookup in Hrun. kunfold.
    destruct (idx =? 0); by simplify_eq.
Qed.

Lemma capacity_is_kept_witness :
  let st := demo_state demo_bus in
  let st1 := after (enter (op_probe demo_spi)) (set_alloc_plan [] st) in
  let st2 := after (enter (op_probe (mk_spi 4 18)))
               (set_alloc_plan [false] st1) in
  (within_capacity st ∧ rtc driver_step st st2) ∧
  within_capacity st2.
Proof.
  intros st st1 st2.
  assert (H1 : within_capacity st).
  { split; [done|]. intros p s Hp. exfalso. revert Hp. vm_compute. done. }
  assert (H2 : rtc driver_step st st2).
  { eapply rtc_l; [|eapply rtc_l; [|apply rtc_refl]].
    - exists (op_probe demo_spi), []. split; [done|by_evaluation].
    - exists (op_probe (mk_spi 4 18)), [false]. split; [done|by_evaluation]. }
  split; [done|].
  exact (capacity_is_kept st st2 H1 H2).
Defined.

(** ** The write path, beyond the claims *)

Lemma omap_exchange_events {A} (f : event → option A) st t discard_rx :
  (∀ t, f (EvSpiBegin t) = None) →
  (∀ x, f (EvSpiEnd x) = None) →
  (∀ n x, f (EvDevDbg n x) = None) →
  (∀ i c, f (EvInsertFlipChar i c) = None) →
  (∀ i, f (EvFlipBufferPush i) = None) →
  omap f (exchange_events st t discard_rx) = [].
Proof. intros. by apply omap_nil, exchange_events_Forall. Qed.

Lemma served_events_split st stty buf count discard_rx :
  served_events st stty buf count discard_rx =
    ([EvMutexLock stty] ++
     alloc_events 3 (xfer_len count discard_rx) (heap st)) ++
    exchange_events st (xfer_of st buf count discard_rx) discard_rx ++
    (free_events (xfer_len count discard_rx) (heap st) ++
     [EvMutexUnlock stty]).
Proof. unfold served_events. by rewrite <- !app_assoc. Qed.

(** X9: on the path where the three allocations succeed, what was
    allocated is given back, last allocated first, before the call
    returns: the slab and the mutexes are as before the call. *)
Theorem served_call_releases stty s buf count discard_rx st :
  heap st !! stty = Some (obj_spi_tty s) →
  stty ∉ locked st →
  0 < count ≤ INT_MAX →
  served 3 (alloc_plan st) →
  ∃ r evs st',
    runs (__spi_serial_tty_write stty (Some buf) count discard_rx) st
      r evs st' ∧
    length (allocated_of evs) = 3%nat ∧
    freed_of evs = reverse (allocated_of evs) ∧
    heap st' = heap st ∧
    locked st' = locked st.
Proof.
  intros Hobj Hfree Hcount Hplan.
  pose proof (write_served_runs _ _ buf _ discard_rx _ Hobj Hfree Hcount Hplan)
    as Hrun.
  eexists _, _, _. split; [exact Hrun|]. kproj.
  rewrite served_events_split. unfold allocated_of, freed_of.
  rewrite !omap_app, !omap_exchange_events by done.
  by repeat split.
Qed.

Lemma served_call_releases_witness :
  let st := probed [] in
  (heap st !! 0%nat = Some (obj_spi_tty (probed_instance demo_spi 0 7)) ∧
   (0%nat ∉ locked st) ∧
   0 < 3 ≤ INT_MAX ∧
   served 3 (alloc_plan st)) ∧
  ∃ r evs st',
    runs (__spi_serial_tty_write 0%nat (Some [72; 105; 33]) 3 false) st
      r evs st' ∧
    length (allocated_of evs) = 3%nat ∧
    freed_of evs = reverse (allocated_of evs) ∧
    heap st' = heap st ∧
    locked st' = locked st.
Proof.
  intros st.
  assert (H1 : heap st !! 0%nat =
                 Some (obj_spi_tty (probed_instance demo_spi 0 7)))
    by by_evaluation.
  assert (H2 : 0%nat ∉ locked st) by by_evaluation.
  assert (H3 : 0 < 3 ≤ INT_MAX) by done.
  assert (H4 : served 3 (alloc_plan st)) by by_evaluation.
  split; [done|].
  exact (served_call_releases 0%nat _ [72; 105; 33] 3 false st H1 H2 H3 H4).
Defined.

Lemma tty_write_runs tty stty buf count st r evs st' :
  drvdata st !! tty_device tty = Some stty →
  runs (__spi_serial_tty_write stty buf count true) st r evs st' →
  runs (spi_serial_tty_write tty buf count) st r evs st'.
Proof.
  intros Hdd [Hrun Htr]. split; [|done].
  unfold spi_serial_tty_write, tty_to_spitty. kunfold. by rewrite Hdd.
Qed.

Lemma no_tty_call_discarding st stty buf count :
  Forall (λ e, is_tty_call e = false)
    (served_events st stty buf count true).
Proof. unfold served_events. by repeat constructor. Qed.

(** X10: a write from the tty layer sends at most 64 bytes: with the
    allocations served it hands the bus one transfer carrying the first
    [min(64, count)] bytes of the buffer at 115200, returns that number
    (so [count] itself whenever [count] is within the advertised write
    room), and whatever the bus answers, nothing is passed to the tty and
    nothing is logged. *)
Theorem tty_write_sends_at_most_64 tty stty s buf count st :
  drvdata st !! tty_device tty = Some stty →
  heap st !! stty = Some (obj_spi_tty s) →
  stty ∉ locked st →
  0 < count ≤ INT_MAX →
  served 3 (alloc_plan st) →
  ∃ evs st' t,
    runs (spi_serial_tty_write tty (Some buf) count) st
      (Z.min SPI_TTY_MSG_LEN count) evs st' ∧
    transfers_of evs = [t] ∧
    frame t = take (Z.to_nat (Z.min SPI_TTY_MSG_LEN count)) buf ∧
    speed_hz t = SPI_TTY_FREQ_HZ_TX ∧
    Forall (λ e, is_tty_call e = false) evs ∧
    dbgs_of evs = [] ∧
    (count ≤ spi_serial_tty_write_room → Z.min SPI_TTY_MSG_LEN count = count).
Proof.
  intros Hdd Hobj Hfree Hcount Hplan.
  pose proof (write_served_runs _ _ buf _ true _ Hobj Hfree Hcount Hplan)
    as Hrun.
  destruct (xfer_len_small count true Hcount) as [Hn _].
  eexists _, _, (xfer_of st buf count true).
  split; [by apply (tty_write_runs _ stty)|].
  split.
  { destruct (write_transfers _ _ _ _ _ _ _ _ Hcount Hrun)
      as [[_ Ht]|[(k & Hk & Hr) _]]; [done|].
    by destruct (served_not_refused k _ Hk Hplan Hr). }
  split; [unfold frame; cbn [len tx_buf xfer_of]; by rewrite Hn|].
  split; [done|].
  split; [apply no_tty_call_discarding|].
  split; [|unfold spi_serial_tty_write_room; lia].
  rewrite served_events_split. unfold dbgs_of.
  by rewrite !omap_app.
Qed.

Lemma tty_write_sends_at_most_64_witness :
  let st := attached [] in
  let buf := replicate 70 88 in
  (drvdata st !! tty_device demo_tty = Some 0%nat ∧
   heap st !! 0%nat = Some (obj_spi_tty (probed_instance demo_spi 0 7)) ∧
   (0%nat ∉ locked st) ∧
   0 < 70 ≤ INT_MAX ∧
   served 3 (alloc_plan st)) ∧
  ∃ evs st' t,
    runs (spi_serial_tty_write demo_tty (Some buf) 70) st
      (Z.min SPI_TTY_MSG_LEN 70) evs st' ∧
    transfers_of evs = [t] ∧
    frame t = take (Z.to_nat (Z.min SPI_TTY_MSG_LEN 70)) buf ∧
    speed_hz t = SPI_TTY_FREQ_HZ_TX ∧
    Forall (λ e, is_tty_call e = false) evs ∧
    dbgs_of evs = [] ∧
    (70 ≤ spi_serial_tty_write_room → Z.min SPI_TTY_MSG_LEN 70 = 70).
Proof.
  intros st buf.
  assert (H0 : drvdata st !! tty_device demo_tty = Some 0%nat)
    by by_evaluation.
  assert (H1 : heap st !! 0%nat =
                 Some (obj_spi_tty (probed_instance demo_spi 0 7)))
    by by_evaluation.
  assert (H2 : 0%nat ∉ locked st) by by_evaluation.
  assert (H3 : 0 < 70 ≤ INT_MAX) by done.
  assert (H4 : served 3 (alloc_plan st)) by by_evaluation.
  split; [done|].
  exact (tty_write_sends_at_most_64 demo_tty 0%nat _ buf 70 st
           H0 H1 H2 H3 H4).
Defined.

(** X11: a poll made while no tty is installed in [ttys[0]] still does
    the exchange and returns the byte count, but passes nothing to the
    tty layer: what the peer sent is dropped. *)
Theorem poll_without_tty stty s buf count st :
  heap st !! stty = Some (obj_spi_tty s) →
  stty ∉ locked st →
  0 < count ≤ INT_MAX →
  served 3 (alloc_plan st) →
  ttys_at st 0 = None →
  ∃ evs st',
    runs (__spi_serial_tty_write stty (Some buf) count false) st count
      evs st' ∧
    transfers_of evs = [xfer_of st buf count false] ∧
    Forall (λ e, is_tty_call e = false) evs.
Proof.
  intros Hobj Hfree Hcount Hplan Htty.
  pose proof (write_served_runs _ _ buf _ false _ Hobj Hfree Hcount Hplan)
    as Hrun.
  eexists _, _. split; [exact Hrun|]. split.
  { destruct (write_transfers _ _ _ _ _ _ _ _ Hcount Hrun)
      as [[_ Ht]|[(k & Hk & Hr) _]]; [done|].
    by destruct (served_not_refused k _ Hk Hplan Hr). }
  unfold served_events, exchange_events, poll_events. rewrite Htty.
  destruct (_ =? 0); by repeat constructor.
Qed.

Lemma poll_without_tty_witness :
  let st := probed [] in
  let buf := replicate 64 0x05 ++ [0x00] in
  (heap st !! 0%nat = Some (obj_spi_tty (probed_instance demo_spi 0 7)) ∧
   (0%nat ∉ locked st) ∧
   0 < 65 ≤ INT_MAX ∧
   served 3 (alloc_plan st) ∧
   ttys_at st 0 = None) ∧
  ∃ evs st',
    runs (__spi_serial_tty_write 0%nat (Some buf) 65 false) st 65 evs st' ∧
    transfers_of evs = [xfer_of st buf 65 false] ∧
    Forall (λ e, is_tty_call e = false) evs.
Proof.
  intros st buf.
  assert (H1 : heap st !! 0%nat =
                 Some (obj_spi_tty (probed_instance demo_spi 0 7)))
    by by_evaluation.
  assert (H2 : 0%nat ∉ locked st) by by_evaluation.
  assert (H3 : 0 < 65 ≤ INT_MAX) by done.
  assert (H4 : served 3 (alloc_plan st)) by by_evaluation.
  assert (H5 : ttys_at st 0 = None) by by_evaluation.
  split; [done|].
  exact (poll_without_tty 0%nat _ buf 65 st H1 H2 H3 H4 H5).
Defined.

Lemma dbgs_of_flips i l : dbgs_of (map (EvInsertFlipChar i) l) = [].
Proof. by induction l. Qed.

Lemma dbgs_of_app evs1 evs2 :
  dbgs_of (evs1 ++ evs2) = dbgs_of evs1 ++ dbgs_of evs2.
Proof. apply omap_app. Qed.

Lemma dbgs_of_poll st t :
  dbgs_of (poll_events st t) =
    if (spi_bus st t).2 =? 0 then [] else [(len t, (spi_bus st t).2)].
Proof.
  unfold poll_events. rewrite dbgs_of_app.
  assert (dbgs_of match ttys_at st 0 with
                  | Some tty =>
                      map (EvInsertFlipChar (tty_index tty))
                        (delivered (inbound st t)) ++
                      [EvFlipBufferPush (tty_index tty)]
                  | None => []
                  end = []) as ->.
  { destruct (ttys_at st 0); [|done].
    by rewrite dbgs_of_app, dbgs_of_flips. }
  rewrite app_nil_r. by destruct (_ =? 0).
Qed.

(** X12: the only diagnostic of the write path is the one of a poll
    whose exchange reported a status other than 0, and it carries the
    transfer length and that status; a discarding write logs nothing,
    not even a failed exchange. *)
Theorem diagnostics_only_for_failed_polls
    stty s buf count discard_rx st :
  heap st !! stty = Some (obj_spi_tty s) →
  stty ∉ locked st →
  0 < count ≤ INT_MAX →
  served 3 (alloc_plan st) →
  let status := (spi_bus st (xfer_of st buf count discard_rx)).2 in
  ∃ r evs st',
    runs (__spi_serial_tty_write stty (Some buf) count discard_rx) st
      r evs st' ∧
    EvSpiEnd status ∈ evs ∧
    dbgs_of evs =
      if discard_rx then []
      else if status =? 0 then []
      else [(count, status)].
Proof.
  intros Hobj Hfree Hcount Hplan status.
  pose proof (write_served_runs _ _ buf _ discard_rx _ Hobj Hfree Hcount Hplan)
    as Hrun.
  eexists _, _, _. split; [exact Hrun|]. split.
  { apply elem_of_served_events. unfold exchange_events.
    apply elem_of_cons. right. apply elem_of_cons. by left. }
  rewrite served_events_split, !dbgs_of_app.
  unfold exchange_events.
  destruct discard_rx; [done|].
  change (dbgs_of (EvSpiBegin ?t :: EvSpiEnd ?x :: ?l)) with (dbgs_of l).
  rewrite dbgs_of_poll. fold status.
  destruct (xfer_len_small count false Hcount) as [Hn _].
  cbn [len xfer_of]. rewrite Hn.
  by destruct (status =? 0).
Qed.

Lemma diagnostics_only_for_failed_polls_witness :
  let st := probed_on broken_bus [] in
  let buf := replicate 64 0x05 ++ [0x00] in
  (heap st !! 0%nat = Some (obj_spi_tty (probed_instance demo_spi 0 7)) ∧
   (0%nat ∉ locked st) ∧
   0 < 65 ≤ INT_MAX ∧
   served 3 (alloc_plan st)) ∧
  ∃ r evs st',
    runs (__spi_serial_tty_write 0%nat (Some buf) 65 false) st r evs st' ∧
    EvSpiEnd (-5) ∈ evs ∧
    dbgs_of evs = [(65, -5)].
Proof.
  intros st buf.
  assert (H1 : heap st !! 0%nat =
                 Some (obj_spi_tty (probed_instance demo_spi 0 7)))
    by by_evaluation.
  assert (H2 : 0%nat ∉ locked st) by by_evaluation.
  assert (H3 : 0 < 65 ≤ INT_MAX) by done.
  assert (H4 : served 3 (alloc_plan st)) by by_evaluation.
  split; [done|].
  exact (diagnostics_only_for_failed_polls 0%nat _ buf 65 false st
           H1 H2 H3 H4).
Defined.

Lemma irq_handler_runs irq data s st r evs st' :
  heap st !! data = Some (obj_spi_tty s) →
  runs (__spi_serial_tty_write data (Some (enq_buf s)) sizeof_enq_buf false)
    st r evs st' →
  runs (spi_tty_irq_handler irq data) st IRQ_HANDLED evs st'.
Proof.
  intros Hobj [Hrun Htr]. split; [|done].
  unfold spi_tty_irq_handler, bind at 1, load. rewrite Hobj.
  unfold bind, ret. by rewrite Hrun.
Qed.

(** X13: the interrupt handler ignores the outcome of its poll: when an
    allocation of the poll is refused, it still returns [IRQ_HANDLED],
    although nothing was exchanged and nothing reached the tty. *)
Theorem irq_handler_hides_refusal irq data s st k :
  heap st !! data = Some (obj_spi_tty s) →
  data ∉ locked st →
  (k < 3)%nat →
  refused_at k (alloc_plan st) →
  ∃ evs st',
    runs (spi_tty_irq_handler irq data) st IRQ_HANDLED evs st' ∧
    transfers_of evs = [] ∧
    Forall (λ e, is_tty_call e = false) evs ∧
    locked st' = locked st.
Proof.
  intros Hobj Hfree Hk Hplan.
  assert (Hrun : runs (__spi_serial_tty_write data (Some (enq_buf s))
                         sizeof_enq_buf false) st (- ENOMEM)
                   (refused_events k st data sizeof_enq_buf false)
                   (set_trace
                      (trace st ++ refused_events k st data sizeof_enq_buf
                                     false)
                      (set_heap
                         (heap_after k (xfer_len sizeof_enq_buf false)
                            (heap st))
                         (set_alloc_plan (drop (S k) (alloc_plan st)) st)))).
  { split; [|done]. by apply (write_refused k _ s). }
  eexists _, _. split; [by eapply irq_handler_runs|].
  split; [|split; [|done]].
  - by destruct k as [|[|[|k]]]; [..|lia].
  - destruct k as [|[|[|k]]]; [..|lia]; by repeat constructor.
Qed.

Lemma irq_handler_hides_refusal_witness :
  let st := attached [false] in
  (heap st !! 0%nat = Some (obj_spi_tty (probed_instance demo_spi 0 7)) ∧
   (0%nat ∉ locked st) ∧
   (0 < 3)%nat ∧
   refused_at 0 (alloc_plan st)) ∧
  ∃ evs st',
    runs (spi_tty_irq_handler 17 0%nat) st IRQ_HANDLED evs st' ∧
    transfers_of evs = [] ∧
    Forall (λ e, is_tty_call e = false) evs ∧
    locked st' = locked st.
Proof.
  intros st.
  assert (H1 : heap st !! 0%nat =
                 Some (obj_spi_tty (probed_instance demo_spi 0 7)))
    by by_evaluation.
  assert (H2 : 0%nat ∉ locked st) by by_evaluation.
  assert (H3 : (0 < 3)%nat) by lia.
  assert (H4 : refused_at 0 (alloc_plan st)) by by_evaluation.
  split; [done|].
  exact (irq_handler_hides_refusal 17 0%nat _ st 0 H1 H2 H3 H4).
Defined.

(** X14: a call that failed with [-ENOMEM] leaves the instance usable:
    the next call on it, once the slab serves again, takes the mutex,
    makes its exchange and returns its length. *)
Theorem write_after_refusal
    stty s buf1 count1 discard1 buf2 count2 (discard2 : bool) st k :
  heap st !! stty = Some (obj_spi_tty s) →
  stty ∉ locked st →
  0 < count1 ≤ INT_MAX →
  0 < count2 ≤ INT_MAX →
  (k < 3)%nat →
  refused_at k (alloc_plan st) →
  served 3 (drop (S k) (alloc_plan st)) →
  ∃ st1 evs2 st2 t,
    __spi_serial_tty_write stty (Some buf1) count1 discard1 st =
      Some (- ENOMEM, st1) ∧
    runs (__spi_serial_tty_write stty (Some buf2) count2 discard2) st1
      (if discard2 then Z.min SPI_TTY_MSG_LEN count2 else count2)
      evs2 st2 ∧
    transfers_of evs2 = [t] ∧
    frame t = take (Z.to_nat (len t)) buf2.
Proof.
  intros Hobj Hfree Hc1 Hc2 Hk Hplan Hnext.
  eexists _, _, _, _.
  split; [apply (write_refused k _ s); (done || lia)|].
  match goal with
  | |- runs _ ?st1 _ _ _ ∧ _ =>
      assert (Hrun2 : runs (__spi_serial_tty_write stty (Some buf2) count2
                              discard2) st1
                        (if discard2 then Z.min SPI_TTY_MSG_LEN count2
                         else count2)
                        (served_events st1 stty buf2 count2 discard2)
                        (set_trace
                           (trace st1 ++
                              served_events st1 stty buf2 count2 discard2)
                           (set_alloc_plan (drop 3 (alloc_plan st1)) st1)))
  end.
  { apply (write_served_runs _ s); kproj; try done.
    by apply heap_after_instances. }
  split; [exact Hrun2|].
  destruct (write_transfers _ _ _ _ _ _ _ _ Hc2 Hrun2)
    as [[_ Ht]|[(k' & Hk' & Hr) _]].
  - split; [exact Ht|done].
  - exfalso. kproj. by eapply (served_not_refused k').
Qed.

Lemma write_after_refusal_witness :
  let st := probed [true; false] in
  (heap st !! 0%nat = Some (obj_spi_tty (probed_instance demo_spi 0 7)) ∧
   (0%nat ∉ locked st) ∧
   0 < 1 ≤ INT_MAX ∧
   0 < 2 ≤ INT_MAX ∧
   (1 < 3)%nat ∧
   refused_at 1 (alloc_plan st) ∧
   served 3 (drop 2 (alloc_plan st))) ∧
  ∃ st1 evs2 st2 t,
    __spi_serial_tty_write 0%nat (Some [65]) 1 true st =
      Some (- ENOMEM, st1) ∧
    runs (__spi_serial_tty_write 0%nat (Some [72; 105]) 2 true) st1
      (Z.min SPI_TTY_MSG_LEN 2) evs2 st2 ∧
    transfers_of evs2 = [t] ∧
    frame t = take (Z.to_nat (len t)) [72; 105].
Proof.
  intros st.
  assert (H1 : heap st !! 0%nat =
                 Some (obj_spi_tty (probed_instance demo_spi 0 7)))
    by by_evaluation.
  assert (H2 : 0%nat ∉ locked st) by by_evaluation.
  assert (H3 : 0 < 1 ≤ INT_MAX) by done.
  assert (H4 : 0 < 2 ≤ INT_MAX) by done.
  assert (H5 : (1 < 3)%nat) by lia.
  assert (H6 : refused_at 1 (alloc_plan st)) by by_evaluation.
  assert (H7 : served 3 (drop 2 (alloc_plan st))) by by_evaluation.
  split; [done|].
  exact (write_after_refusal 0%nat _ [65] 1 true [72; 105] 2 true st 1
           H1 H2 H3 H4 H5 H6 H7).
Defined.

(** ** The tty slot: install, lookup, remove *)

Lemma ttys_at_insert st v d :
  (0 < length (ttys st))%nat →
  ttys_at (set_ttys (<[0%nat := v]> (ttys st)) d st) 0 = v.
Proof.
  intros Hlen. unfold ttys_at. kproj.
  by rewrite list_lookup_insert_eq.
Qed.

Lemma install_served tty st :
  ttys_at st 0 = None →
  init_termios_ret st tty = 0 →
  spi_serial_tty_install tty st =
    Some (0,
      set_ttys
        (<[0%nat := Some (mk_tty (tty_index tty) (tty_device tty)
                            (to_int (tty_count tty + 1)))]> (ttys st))
        true (set_trace (trace st ++ [EvKrefGet]) st)).
Proof.
  intros Hslot Hterm. unfold spi_serial_tty_install. kunfold.
  by rewrite Hslot, Hterm.
Qed.

(** X15: installing a tty while the slot is empty returns 0, takes a
    reference on the driver and publishes the tty, its count raised by
    one, in [ttys[0]]: from then on a lookup, at any index, finds it. *)
Theorem install_then_lookup tty st idx :
  (0 < length (ttys st))%nat →
  ttys_at st 0 = None →
  init_termios_ret st tty = 0 →
  ∃ st',
    runs (spi_serial_tty_install tty) st 0 [EvKrefGet] st' ∧
    driver_ttys st' = true ∧
    spi_serial_tty_lookup idx st' =
      Some (Some (mk_tty (tty_index tty) (tty_device tty)
                    (to_int (tty_count tty + 1))), st').
Proof.
  intros Hlen Hslot Hterm. eexists.
  split; [split; [by apply install_served|done]|].
  split; [done|].
  unfold spi_serial_tty_lookup, ttys_at. kunfold.
  destruct (idx =? 0); kproj; by rewrite list_lookup_insert_eq.
Qed.

Lemma install_then_lookup_witness :
  let st := probed [] in
  ((0 < length (ttys st))%nat ∧
   ttys_at st 0 = None ∧
   init_termios_ret st demo_tty = 0) ∧
  ∃ st',
    runs (spi_serial_tty_install demo_tty) st 0 [EvKrefGet] st' ∧
    driver_ttys st' = true ∧
    spi_serial_tty_lookup 5 st' =
      Some (Some (mk_tty (tty_index demo_tty) (tty_device demo_tty)
                    (to_int (tty_count demo_tty + 1))), st').
Proof.
  intros st.
  assert (H1 : (0 < length (ttys st))%nat) by (vm_compute; lia).
  assert (H2 : ttys_at st 0 = None) by by_evaluation.
  assert (H3 : init_termios_ret st demo_tty = 0) by done.
  split; [done|].
  exact (install_then_lookup demo_tty st 5 H1 H2 H3).
Defined.

(** X16: installing a tty while [ttys[0]] is taken fails with [-EBUSY]
    and changes nothing: the tty installed first stays. *)
Theorem install_busy tty tty0 st :
  ttys_at st 0 = Some tty0 →
  spi_serial_tty_install tty st = Some (- EBUSY, st).
Proof.
  intros Hslot. unfold spi_serial_tty_install. kunfold. by rewrite Hslot.
Qed.

Lemma install_busy_witness :
  ttys_at (attached []) 0 = Some (mk_tty 1 7 1) ∧
  spi_serial_tty_install (mk_tty 2 7 0) (attached []) =
    Some (- EBUSY, attached []).
Proof.
  assert (H : ttys_at (attached []) 0 = Some (mk_tty 1 7 1))
    by by_evaluation.
  split; [exact H|].
  exact (install_busy (mk_tty 2 7 0) _ (attached []) H).
Defined.

(** X17: when the termios of the tty cannot be set up, the install
    fails with [-ENOMEM] before anything is touched: no reference is
    taken and the slot stays empty. *)
Theorem install_without_termios tty st :
  ttys_at st 0 = None →
  init_termios_ret st tty ≠ 0 →
  spi_serial_tty_install tty st = Some (- ENOMEM, st).
Proof.
  intros Hslot Hterm. unfold spi_serial_tty_install. kunfold.
  rewrite Hslot. by destruct (Z.eqb_spec (init_termios_ret st tty) 0).
Qed.

Lemma install_without_termios_witness :
  let st := module_state [] demo_bus id (λ _, 0) (λ _, inl 7%nat)
              (λ _, -12) in
  (ttys_at st 0 = None ∧ init_termios_ret st demo_tty ≠ 0) ∧
  spi_serial_tty_install demo_tty st = Some (- ENOMEM, st).
Proof.
  intros st.
  assert (H1 : ttys_at st 0 = None) by done.
  assert (H2 : init_termios_ret st demo_tty ≠ 0) by done.
  split; [done|].
  exact (install_without_termios demo_tty st H1 H2).
Defined.

(** X18: removing the tty empties the slot and detaches the table from
    the driver, whichever tty is passed and without touching the slab: a
    lookup then finds nothing and a new install is accepted. *)
Theorem tty_remove_empties_slot tty tty2 st idx :
  (0 < length (ttys st))%nat →
  init_termios_ret st tty2 = 0 →
  ∃ st' st'',
    spi_serial_tty_remove tty st = Some (tt, st') ∧
    ttys_at st' 0 = None ∧
    driver_ttys st' = false ∧
    heap st' = heap st ∧
    spi_serial_tty_lookup idx st' = Some (None, st') ∧
    spi_serial_tty_install tty2 st' = Some (0, st'') ∧
    ttys_at st'' 0 =
      Some (mk_tty (tty_index tty2) (tty_device tty2)
              (to_int (tty_count tty2 + 1))).
Proof.
  intros Hlen Hterm.
  assert (Hslot : ttys_at (set_ttys (<[0%nat := None]> (ttys st)) false st) 0
                  = None) by by apply ttys_at_insert.
  eexists _, _.
  split; [reflexivity|]. split; [done|]. split; [done|]. split; [done|].
  split.
  { unfold spi_serial_tty_lookup. kunfold.
    destruct (idx =? 0); by rewrite Hslot. }
  split; [by apply install_served|].
  unfold ttys_at. kproj. rewrite list_lookup_insert_eq; [done|].
  by rewrite length_insert.
Qed.

Lemma tty_remove_empties_slot_witness :
  let st := attached [] in
  ((0 < length (ttys st))%nat ∧ init_termios_ret st (mk_tty 2 7 0) = 0) ∧
  ∃ st' st'',
    spi_serial_tty_remove demo_tty st = Some (tt, st') ∧
    ttys_at st' 0 = None ∧
    driver_ttys st' = false ∧
    heap st' = heap st ∧
    spi_serial_tty_lookup 0 st' = Some (None, st') ∧
    spi_serial_tty_install (mk_tty 2 7 0) st' = Some (0, st'') ∧
    ttys_at st'' 0 =
      Some (mk_tty (tty_index (mk_tty 2 7 0)) (tty_device (mk_tty 2 7 0))
              (to_int (tty_count (mk_tty 2 7 0) + 1))).
Proof.
  intros st.
  assert (H1 : (0 < length (ttys st))%nat) by (vm_compute; lia).
  assert (H2 : init_termios_ret st (mk_tty 2 7 0) = 0) by done.
  split; [done|].
  exact (tty_remove_empties_slot demo_tty (mk_tty 2 7 0) st 0 H1 H2).
Defined.

(** ** More on polls, refused writes and removal *)

Lemma filter_tty_calls_flips i l :
  filter (λ e, is_tty_call e = true) (map (EvInsertFlipChar i) l) =
    map (EvInsertFlipChar i) l.
Proof.
  induction l as [|c l IH]; [done|]. cbn [map].
  rewrite filter_cons_True by done. by rewrite IH.
Qed.

Lemma filter_tty_calls_none evs :
  Forall (λ e, is_tty_call e = false) evs →
  filter (λ e, is_tty_call e = true) evs = [].
Proof.
  induction 1 as [|e evs He _ IH]; [done|].
  rewrite filter_cons_False; [done|]. by rewrite He.
Qed.

(** X19: with a tty installed, the calls a poll makes into the tty layer
    are the insertions of the delivered bytes, in order, followed by one
    push of the flip buffer; the push is made even when no byte was
    delivered. *)
Theorem poll_pushes_once stty s tty buf count st :
  heap st !! stty = Some (obj_spi_tty s) →
  stty ∉ locked st →
  0 < count ≤ INT_MAX →
  served 3 (alloc_plan st) →
  ttys_at st 0 = Some tty →
  ∃ r evs st',
    runs (__spi_serial_tty_write stty (Some buf) count false) st r evs st' ∧
    filter (λ e, is_tty_call e = true) evs =
      map (EvInsertFlipChar (tty_index tty))
        (delivered (inbound st (xfer_of st buf count false))) ++
      [EvFlipBufferPush (tty_index tty)].
Proof.
  intros Hobj Hfree Hcount Hplan Htty.
  pose proof (write_served_runs _ _ buf _ false _ Hobj Hfree Hcount Hplan)
    as Hrun.
  eexists _, _, _. split; [exact Hrun|].
  rewrite served_events_split, !filter_app.
  assert (filter (λ e, is_tty_call e = true) [EvMutexLock stty] = []) as ->
    by (apply filter_tty_calls_none; by repeat constructor).
  assert (filter (λ e, is_tty_call e = true)
            (alloc_events 3 (xfer_len count false) (heap st)) = []) as ->
    by (apply filter_tty_calls_none; by repeat constructor).
  assert (filter (λ e, is_tty_call e = true)
            (free_events (xfer_len count false) (heap st)) = []) as ->
    by (apply filter_tty_calls_none; by repeat constructor).
  assert (filter (λ e, is_tty_call e = true) [EvMutexUnlock stty] = []) as ->
    by (apply filter_tty_calls_none; by repeat constructor).
  rewrite !app_nil_r. cbn [app].
  unfold exchange_events, poll_events. rewrite Htty.
  rewrite 2!filter_cons_False by done.
  rewrite !filter_app, filter_tty_calls_flips.
  destruct (_ =? 0); [|rewrite filter_cons_False by done];
    by rewrite filter_cons_True.
Qed.

Lemma poll_pushes_once_witness :
  let st := set_alloc_plan [] (after (spi_serial_tty_install demo_tty)
                                 (probed_on broken_bus [])) in
  let buf := replicate 64 0x05 ++ [0x00] in
  (heap st !! 0%nat = Some (obj_spi_tty (probed_instance demo_spi 0 7)) ∧
   (0%nat ∉ locked st) ∧
   0 < 65 ≤ INT_MAX ∧
   served 3 (alloc_plan st) ∧
   ttys_at st 0 = Some (mk_tty 1 7 1)) ∧
  ∃ r evs st',
    runs (__spi_serial_tty_write 0%nat (Some buf) 65 false) st r evs st' ∧
    filter (λ e, is_tty_call e = true) evs =
      map (EvInsertFlipChar (tty_index (mk_tty 1 7 1)))
        (delivered (inbound st (xfer_of st buf 65 false))) ++
      [EvFlipBufferPush (tty_index (mk_tty 1 7 1))].
Proof.
  intros st buf.
  assert (H1 : heap st !! 0%nat =
                 Some (obj_spi_tty (probed_instance demo_spi 0 7)))
    by by_evaluation.
  assert (H2 : 0%nat ∉ locked st) by by_evaluation.
  assert (H3 : 0 < 65 ≤ INT_MAX) by done.
  assert (H4 : served 3 (alloc_plan st)) by by_evaluation.
  assert (H5 : ttys_at st 0 = Some (mk_tty 1 7 1)) by by_evaluation.
  split; [done|].
  exact (poll_pushes_once 0%nat _ _ buf 65 st H1 H2 H3 H4 H5).
Defined.

(** X20: a write from the tty layer for which the slab refuses one of
    the three allocations returns [-ENOMEM] to the tty layer, hands
    nothing to the bus and leaves the mutex free. *)
Theorem tty_write_refused tty stty s buf count st k :
  drvdata st !! tty_device tty = Some stty →
  heap st !! stty = Some (obj_spi_tty s) →
  stty ∉ locked st →
  0 < count ≤ INT_MAX →
  (k < 3)%nat →
  refused_at k (alloc_plan st) →
  ∃ evs st',
    runs (spi_serial_tty_write tty (Some buf) count) st (- ENOMEM) evs st' ∧
    transfers_of evs = [] ∧
    count_events (is_lock stty) evs = 1%nat ∧
    count_events (is_unlock stty) evs = 1%nat ∧
    locked st' = locked st.
Proof.
  intros Hdd Hobj Hfree Hcount Hk Hplan.
  eexists _, _. split.
  { apply (tty_write_runs _ stty); [done|].
    split; [apply (write_refused k _ s); (done || lia)|done]. }
  split; [by destruct k as [|[|[|k]]]; [..|lia]|].
  destruct (bracketed_once _ _
              (refused_events_bracketed k st stty count true)) as [Hl Hu].
  by repeat split.
Qed.

Lemma tty_write_refused_witness :
  let st := attached [true; true; false] in
  (drvdata st !! tty_device demo_tty = Some 0%nat ∧
   heap st !! 0%nat = Some (obj_spi_tty (probed_instance demo_spi 0 7)) ∧
   (0%nat ∉ locked st) ∧
   0 < 2 ≤ INT_MAX ∧
   (2 < 3)%nat ∧
   refused_at 2 (alloc_plan st)) ∧
  ∃ evs st',
    runs (spi_serial_tty_write demo_tty (Some [72; 105]) 2) st (- ENOMEM)
      evs st' ∧
    transfers_of evs = [] ∧
    count_events (is_lock 0) evs = 1%nat ∧
    count_events (is_unlock 0) evs = 1%nat ∧
    locked st' = locked st.
Proof.
  intros st.
  assert (H0 : drvdata st !! tty_device demo_tty = Some 0%nat)
    by by_evaluation.
  assert (H1 : heap st !! 0%nat =
                 Some (obj_spi_tty (probed_instance demo_spi 0 7)))
    by by_evaluation.
  assert (H2 : 0%nat ∉ locked st) by by_evaluation.
  assert (H3 : 0 < 2 ≤ INT_MAX) by done.
  assert (H4 : (2 < 3)%nat) by lia.
  assert (H5 : refused_at 2 (alloc_plan st)) by by_evaluation.
  split; [done|].
  exact (tty_write_refused demo_tty 0%nat _ [72; 105] 2 st 2
           H0 H1 H2 H3 H4 H5).
Defined.

(** X21: [spi_tty_remove] neither takes nor waits for the mutex of the
    instance: called while the mutex is held, it still unregisters the
    minor, frees the instance and returns 0, and it leaves the tty slot
    as it is. *)
Theorem remove_does_not_wait sdev st p s :
  drvdata st !! spi_dev sdev = Some p →
  heap st !! p = Some (obj_spi_tty s) →
  p ∈ locked st →
  ∃ st',
    runs (spi_tty_remove sdev) st 0
      [EvDevInfo; EvUnregisterDevice (tty_minor s); EvKfree p] st' ∧
    heap st' !! p = None ∧
    (p ∈ locked st') ∧
    ttys st' = ttys st.
Proof.
  intros Hdd Hobj Hheld. eexists.
  split; [split; [by apply (remove_instance _ _ p s)|done]|].
  kproj. split; [apply lookup_delete_eq|done].
Qed.

Lemma remove_does_not_wait_witness :
  let st := set_locked {[0%nat]} (attached []) in
  (drvdata st !! spi_dev demo_spi = Some 0%nat ∧
   heap st !! 0%nat = Some (obj_spi_tty (probed_instance demo_spi 0 7)) ∧
   0%nat ∈ locked st) ∧
  ∃ st',
    runs (spi_tty_remove demo_spi) st 0
      [EvDevInfo;
       EvUnregisterDevice (tty_minor (probed_instance demo_spi 0 7));
       EvKfree 0%nat] st' ∧
    heap st' !! 0%nat = None ∧
    (0%nat ∈ locked st') ∧
    ttys st' = ttys st.
Proof.
  intros st.
  assert (H1 : drvdata st !! spi_dev demo_spi = Some 0%nat) by by_evaluation.
  assert (H2 : heap st !! 0%nat =
                 Some (obj_spi_tty (probed_instance demo_spi 0 7)))
    by by_evaluation.
  assert (H3 : 0%nat ∈ locked st)
    by (apply (bool_decide_unpack _); vm_compute; exact I).
  split; [done|].
  exact (remove_does_not_wait demo_spi st 0%nat _ H1 H2 H3).
Defined.
